(** * battle-cabriolet: the static file server of [server.py]

    [server.py] is a thin customisation of Python's [http.server]:
    a class [CustomHandler(SimpleHTTPRequestHandler)] that replaces the
    MIME table [extensions_map], sends the log to standard output
    ([log_message]) and adds a CORS header when the headers are finished
    ([end_headers]); and a [main] that serves on port 9000 until it is
    interrupted.

    The development embeds these definitions, together with the methods of
    [BaseHTTPRequestHandler], [SimpleHTTPRequestHandler] and
    [socketserver.TCPServer] that they override, call or are called by
    (CPython 3.11's [http/server.py], [socketserver.py], [genericpath.py]),
    and proves the properties of the served responses, of the log and of
    start-up and shutdown. *)

From Stdlib Require Import ZArith Ascii String Lia DecimalString.
From stdpp Require Import gmap strings list.

Local Open Scope Z_scope.

(** ** Python built-ins on [str] used by the server *)

Module Py.

Definition CR : ascii := "013"%char.
Definition LF : ascii := "010"%char.
Definition CRLF : string := String CR (String LF "").
Definition NL : string := String LF "".
Definition DQUOTE : string := String "034"%char "".

(** [s.rfind(c)]: the highest index of [c] in [s], [-1] when absent. *)
Fixpoint rfind_from (c : ascii) (s : string) (i acc : Z) : Z :=
  match s with
  | EmptyString => acc
  | String a s' => rfind_from c s' (i + 1) (if Ascii.eqb a c then i else acc)
  end.

Definition rfind (c : ascii) (s : string) : Z := rfind_from c s 0 (-1).

Fixpoint take (n : nat) (s : string) : string :=
  match n, s with
  | S n', String a s' => String a (take n' s')
  | _, _ => EmptyString
  end.

Fixpoint drop (n : nat) (s : string) : string :=
  match n, s with
  | S n', String _ s' => drop n' s'
  | _, _ => s
  end.

(** [s[i:j]], [s[:j]] and [s[i:]] for indices [0 <= i], [0 <= j] (the only
    ones the server computes). *)
Definition slice (s : string) (i j : Z) : string :=
  take (Z.to_nat (j - i)) (drop (Z.to_nat i) s).
Definition slice_to (s : string) (j : Z) : string := take (Z.to_nat j) s.
Definition slice_from (s : string) (i : Z) : string := drop (Z.to_nat i) s.

(** [str.lower] on ASCII letters; other bytes are kept. *)
Definition lower_ascii (a : ascii) : ascii :=
  let n := nat_of_ascii a in
  if ((65 <=? n) && (n <=? 90))%nat then ascii_of_nat (n + 32) else a.

Fixpoint lower (s : string) : string :=
  match s with
  | EmptyString => EmptyString
  | String a s' => String (lower_ascii a) (lower s')
  end.

(** [s.endswith(suffix)] *)
Definition endswith (s suffix : string) : bool :=
  let n := String.length s in
  let k := String.length suffix in
  ((k <=? n)%nat && String.eqb (drop (n - k) s) suffix)%bool.

(** [str(n)] and [%d] for an [int]. *)
Definition str (n : Z) : string := NilZero.string_of_int (Z.to_int n).

(** Truth value of a [str]: the empty string is false. *)
Definition truthy (s : string) : bool := negb (String.eqb s "").

(** Arguments of the [%] operator. *)
Inductive value :=
| VStr (s : string)
| VInt (n : Z).

(** [format % args] for the directives [%s], [%d] and [%%]: [None] stands
    for the [TypeError]/[ValueError] Python raises on a directive without
    an argument, an argument without a directive, [%d] applied to a [str]
    or an unknown directive. *)
Fixpoint format (fmt : string) (args : list value) : option string :=
  match fmt with
  | EmptyString => match args with [] => Some EmptyString | _ => None end
  | String "%" (String "%" rest) =>
      r ← format rest args; Some (String "%" r)
  | String "%" (String "s" rest) =>
      match args with
      | VStr s :: args' => r ← format rest args'; Some (s +:+ r)
      | VInt n :: args' => r ← format rest args'; Some (str n +:+ r)
      | [] => None
      end
  | String "%" (String "d" rest) =>
      match args with
      | VInt n :: args' => r ← format rest args'; Some (str n +:+ r)
      | _ => None
      end
  | String "%" _ => None
  | String a rest => r ← format rest args; Some (String a r)
  end.

(** [s.split(c, 1)[0]]: the part of [s] before the first [c], all of [s]
    when there is none. *)
Fixpoint before (c : ascii) (s : string) : string :=
  match s with
  | EmptyString => EmptyString
  | String a s' => if Ascii.eqb a c then EmptyString else String a (before c s')
  end.

(** [s.split(c)]: the pieces of [s] between the occurrences of [c]. *)
Fixpoint split (c : ascii) (s : string) : list string :=
  match s with
  | EmptyString => [EmptyString]
  | String a s' =>
      if Ascii.eqb a c then EmptyString :: split c s'
      else match split c s' with
           | w :: ws => String a w :: ws
           | [] => [String a EmptyString]
           end
  end.

(** [str.isspace] on the code points below 256. *)
Definition isspace (a : ascii) : bool :=
  let n := nat_of_ascii a in
  (((9 <=? n) && (n <=? 13)) || ((28 <=? n) && (n <=? 32))
   || (n =? 133) || (n =? 160))%nat.

(** [s.rstrip()] and [s.rstrip(c)] *)
Fixpoint rstrip_if (strip : ascii -> bool) (s : string) : string :=
  match s with
  | EmptyString => EmptyString
  | String a s' =>
      match rstrip_if strip s' with
      | EmptyString => if strip a then EmptyString else String a EmptyString
      | rest => String a rest
      end
  end.

Definition rstrip (s : string) : string := rstrip_if isspace s.
Definition rstrip_char (c : ascii) (s : string) : string := rstrip_if (Ascii.eqb c) s.

(** [s * n] *)
Fixpoint times (s : string) (n : nat) : string :=
  match n with
  | O => EmptyString
  | S n' => s +:+ times s n'
  end.

(** [s.startswith(prefix)] *)
Definition startswith (s prefix : string) : bool :=
  String.eqb (take (String.length prefix) s) prefix.

End Py.

(** ** [posixpath.splitext] *)

(** The loop of [genericpath._splitext] that skips the leading dots of the
    file name: [fuel] bounds its iterations. *)
Fixpoint skip_leading_dots (p : string) (filenameIndex dotIndex : Z)
    (fuel : nat) : string * string :=
  match fuel with
  | O => (p, EmptyString)
  | S fuel' =>
      if filenameIndex <? dotIndex then
        if negb (String.eqb (Py.slice p filenameIndex (filenameIndex + 1)) ".")
        then (Py.slice_to p dotIndex, Py.slice_from p dotIndex)
        else skip_leading_dots p (filenameIndex + 1) dotIndex fuel'
      else (p, EmptyString)
  end.

Definition splitext (p : string) : string * string :=
  let sepIndex := Py.rfind "/" p in
  let dotIndex := Py.rfind "." p in
  if dotIndex >? sepIndex
  then skip_leading_dots p (sepIndex + 1) dotIndex (Z.to_nat (dotIndex - sepIndex))
  else (p, EmptyString).

(** [SimpleHTTPRequestHandler.guess_type], over the table [self.extensions_map]
    and the platform's [mimetypes.guess_type] (its first component). *)
Definition guess_type (extensions_map : gmap string string)
    (mimetypes_guess_type : string -> option string) (path : string) : string :=
  let '(base, ext) := splitext path in
  match extensions_map !! ext with
  | Some ty => ty
  | None =>
      let ext := Py.lower ext in
      match extensions_map !! ext with
      | Some ty => ty
      | None =>
          match mimetypes_guess_type path with
          | Some guess => if Py.truthy guess then guess else "application/octet-stream"
          | None => "application/octet-stream"
          end
      end
  end.

(** ** The world of a running server *)

(** An entry of the file system: a directory with its listing ([None] when
    the process may not list it), or a regular file with its bytes and the
    time of its last modification (seconds since the epoch). *)
Inductive node :=
| Dir (entries : option (list string))
| File (data : string) (mtime : Z).

(** What [open(path, 'rb')] or [io.BytesIO()] returned. *)
Inductive fileobj :=
| FileObj (name : string) (data : string) (mtime : Z)
| BytesIO (data : string).

Definition read_all (f : fileobj) : string :=
  match f with
  | FileObj _ data _ => data
  | BytesIO data => data
  end.

(** A request as [parse_request] leaves it in the handler. *)
Record request := Request {
  requestline : string;
  command : string;
  path : string;
  request_version : string;
  headers : list (string * string);
}.

(** The attributes of a request before [parse_request] has assigned them. *)
Definition no_request : request := Request "" "" "" "" [].

(** The listening socket of the server: not created yet, created, bound
    and listening, closed. *)
Inductive socket_state := NoSocket | Unbound | Listening | Closed.

(** The state the code reads and assigns: the class attribute
    [CustomHandler.extensions_map] (a dict, shared by all handlers), the
    file system, the listening socket of the [TCPServer], and the
    attributes of the handler instance that serves the current connection:
    the address of the client, the request that [parse_request] read last,
    [close_connection] and the header buffer ([None] while the instance has
    no attribute [_headers_buffer]). *)
Record state := State {
  extensions_map : gmap string string;
  fs : string -> option node;
  socket : socket_state;
  client_address : string * Z;
  self : request;
  close_connection : bool;
  _headers_buffer : option (list string);
}.

Definition set_socket (v : socket_state) (s : state) : state :=
  State (extensions_map s) (fs s) v (client_address s) (self s)
    (close_connection s) (_headers_buffer s).
Definition set_client_address (v : string * Z) (s : state) : state :=
  State (extensions_map s) (fs s) (socket s) v (self s)
    (close_connection s) (_headers_buffer s).
Definition set_self (v : request) (s : state) : state :=
  State (extensions_map s) (fs s) (socket s) (client_address s) v
    (close_connection s) (_headers_buffer s).
Definition set_close_connection (v : bool) (s : state) : state :=
  State (extensions_map s) (fs s) (socket s) (client_address s) (self s)
    v (_headers_buffer s).
Definition set_headers_buffer (v : option (list string)) (s : state) : state :=
  State (extensions_map s) (fs s) (socket s) (client_address s) (self s)
    (close_connection s) v.

(** What is written to the connection: a block of header lines (one
    [wfile.write] of the joined [_headers_buffer]) or body bytes. *)
Inductive chunk :=
| Head (lines : list string)
| Body (data : string).

(** Output of the process, in order: writes to [sys.stdout], to
    [sys.stderr], and to the [wfile] of the connection being served. *)
Inductive output :=
| Stdout (text : string)
| Stderr (text : string)
| Wfile (c : chunk).

Inductive exn :=
| OSError (msg : string)
| KeyboardInterrupt
| AttributeError (msg : string)
| TypeError (msg : string)
| OtherException (name msg : string).

(** A statement returns a value, raises, or never returns ([Blocked]: the
    process waits for an event that does not come). *)
Inductive result (A : Type) :=
| Ok (a : A)
| Raise (e : exn)
| Blocked.
Arguments Ok {A} a.
Arguments Raise {A} e.
Arguments Blocked {A}.

(** Python statements: a state transformer with a result, which appends to
    the output. *)
Definition M (A : Type) : Type := state -> result A * state * list output.

#[global] Instance M_ret : MRet M := fun A a s => (Ok a, s, []).
#[global] Instance M_bind : MBind M := fun A B k m s =>
  match m s with
  | (Ok a, s', o) => let '(r, s'', o') := k a s' in (r, s'', o ++ o')
  | (Raise e, s', o) => (Raise e, s', o)
  | (Blocked, s', o) => (Blocked, s', o)
  end.
#[global] Instance M_throw : MThrow exn M := fun A e s => (Raise e, s, []).

Definition get : M state := fun s => (Ok s, s, []).
Definition modify (f : state -> state) : M unit := fun s => (Ok tt, f s, []).
Definition emit (o : output) : M unit := fun s => (Ok tt, s, [o]).
Definition block {A} : M A := fun s => (Blocked, s, []).

(** [try: body except <handles>: handler], the exception re-raised when
    [handler] gives [None] for it. *)
Definition try_except {A} (body : M A) (handler : exn -> option (M A)) : M A :=
  fun s =>
    match body s with
    | (Raise e, s', o) =>
        match handler e with
        | Some h => let '(r, s'', o') := h s' in (r, s'', o ++ o')
        | None => (Raise e, s', o)
        end
    | other => other
    end.

(** [try: body finally: cleanup], and the [__exit__] of a [with] statement
    that returns [None]. *)
Definition try_finally {A} (body : M A) (cleanup : M unit) : M A :=
  fun s =>
    match body s with
    | (Blocked, s', o) => (Blocked, s', o)
    | (r, s', o) =>
        match cleanup s' with
        | (Ok _, s'', o') => (r, s'', o ++ o')
        | (Raise e, s'', o') => (Raise e, s'', o ++ o')
        | (Blocked, s'', o') => (Blocked, s'', o ++ o')
        end
    end.

(** [format % args] as a statement. *)
Definition format (fmt : string) (args : list Py.value) : M string :=
  match Py.format fmt args with
  | Some text => mret text
  | None => mthrow (TypeError "not all arguments converted during string formatting")
  end.

(** ** The platform: what the standard library and the operating system
    compute for the handler *)

Record platform := Platform {
  (** [SimpleHTTPRequestHandler.translate_path] for [self.directory], the
      working directory at start-up *)
  translate_path : string -> string;
  (** [urllib.parse.urlsplit(path).path] *)
  urlsplit_path : string -> string;
  (** [urlunsplit] of the request path with ["/"] appended to its path part *)
  redirect_location : string -> string;
  (** first component of [mimetypes.guess_type] *)
  mimetypes_guess_type : string -> option string;
  (** [self.version_string()] *)
  version_string : string;
  (** [self.date_time_string()] at the time of the request, and of a file's
      modification time *)
  date_time_now : string;
  date_time_string : Z -> string;
  (** [email.utils.parsedate_to_datetime] of an [If-Modified-Since] value:
      the time in seconds when it parses and is in UTC or has no zone *)
  parsedate_utc : string -> option Z;
  (** [error_message_format % {code, message, explain}], encoded *)
  error_page : Z -> string -> string -> string;
  (** the HTML page of [list_directory], encoded *)
  listing_page : (string -> option node) -> string -> string -> list string -> string;
  (** [sys.getfilesystemencoding()] *)
  filesystemencoding : string;
  (** [repr] of a [str] and of a client address *)
  repr : string -> string;
  repr_address : string * Z -> string;
  (** the stack part of a traceback: [Traceback (most recent call last):]
      and the frames *)
  stack_trace : exn -> string;
  (** [socket.bind(address)]: the error of the operating system, if it
      refuses (the address is in use, or may not be bound) *)
  bind : string * Z -> option string;
}.


(** [type(e).__name__] and [str(e)] *)
Definition exn_name (e : exn) : string :=
  match e with
  | OSError _ => "OSError"
  | KeyboardInterrupt => "KeyboardInterrupt"
  | AttributeError _ => "AttributeError"
  | TypeError _ => "TypeError"
  | OtherException name _ => name
  end.

Definition exn_text (e : exn) : string :=
  match e with
  | OSError msg | AttributeError msg | TypeError msg | OtherException _ msg => msg
  | KeyboardInterrupt => ""
  end.

(** The last line of a traceback ([traceback.format_exception_only]). *)
Definition format_exception_only (e : exn) : string :=
  if Py.truthy (exn_text e) then exn_name e +:+ ": " +:+ exn_text e +:+ Py.NL
  else exn_name e +:+ Py.NL.

(** [traceback.format_exc()], and what the interpreter prints for an
    exception that nothing catches. *)
Definition format_exc (p : platform) (e : exn) : string :=
  stack_trace p e +:+ format_exception_only e.

(** ** [BaseHTTPRequestHandler]: the response under construction *)

(** The methods a subclass overrides, called through [self]. *)
Record handler_class := HandlerClass {
  log_message : string -> list Py.value -> M unit;
  end_headers : M unit;
}.

Definition protocol_version : string := "HTTP/1.0".
Definition error_content_type : string := "text/html;charset=utf-8".

(** [BaseHTTPRequestHandler.responses], restricted to the statuses that
    [http.server] passes to [send_response] and [send_error]. *)
Definition responses : gmap Z (string * string) :=
  list_to_map
    [ (100, ("Continue", "Request received, please continue"));
      (200, ("OK", "Request fulfilled, document follows"));
      (301, ("Moved Permanently", "Object moved permanently -- see URI list"));
      (304, ("Not Modified", "Document has not changed since given time"));
      (400, ("Bad Request", "Bad request syntax or unsupported method"));
      (404, ("Not Found", "Nothing matches the given URI"));
      (414, ("Request-URI Too Long", "URI is too long"));
      (431, ("Request Header Fields Too Large",
             "The server is unwilling to process the request because its header fields are too large"));
      (501, ("Not Implemented", "Server does not support this operation"));
      (505, ("HTTP Version Not Supported", "Cannot fulfill request")) ].

Definition address_string : M string :=
  s ← get; mret (fst (client_address s)).

Definition stdout_write (text : string) : M unit := emit (Stdout text).
Definition stderr_write (text : string) : M unit := emit (Stderr text).
Definition wfile_write (c : chunk) : M unit := emit (Wfile c).

(** [self._headers_buffer.append(line)], after
    [if not hasattr(self, '_headers_buffer'): self._headers_buffer = []]. *)
Definition headers_buffer_append (line : string) : M unit :=
  modify (fun s =>
    set_headers_buffer (Some (default [] (_headers_buffer s) ++ [line])) s).

Definition send_response_only (code : Z) (message : option string) : M unit :=
  s ← get;
  if negb (String.eqb (request_version (self s)) "HTTP/0.9") then
    let message :=
      match message with
      | Some m => m
      | None => match responses !! code with Some (phrase, _) => phrase | None => "" end
      end in
    line ← format ("%s %d %s" +:+ Py.CRLF)
             [Py.VStr protocol_version; Py.VInt code; Py.VStr message];
    headers_buffer_append line
  else mret tt.

Definition send_header (keyword value : string) : M unit :=
  s ← get;
  (if negb (String.eqb (request_version (self s)) "HTTP/0.9") then
     line ← format ("%s: %s" +:+ Py.CRLF) [Py.VStr keyword; Py.VStr value];
     headers_buffer_append line
   else mret tt);;
  if String.eqb (Py.lower keyword) "connection" then
    if String.eqb (Py.lower value) "close" then modify (set_close_connection true)
    else if String.eqb (Py.lower value) "keep-alive" then modify (set_close_connection false)
    else mret tt
  else mret tt.

Definition flush_headers : M unit :=
  s ← get;
  match _headers_buffer s with
  | Some buffer =>
      wfile_write (Head buffer);;
      modify (set_headers_buffer (Some []))
  | None => mret tt
  end.

Module BaseHTTPRequestHandler.

(** The inherited [log_message]: to [sys.stderr], with the date. *)
Definition log_message (log_date_time_string : string)
    (escape_control : string -> string)
    (fmt : string) (args : list Py.value) : M unit :=
  message ← format fmt args;
  addr ← address_string;
  line ← format ("%s - - [%s] %s" +:+ Py.NL)
           [Py.VStr addr; Py.VStr log_date_time_string;
            Py.VStr (escape_control message)];
  stderr_write line.

(** The inherited [end_headers]. *)
Definition end_headers : M unit :=
  s ← get;
  if negb (String.eqb (request_version (self s)) "HTTP/0.9") then
    match _headers_buffer s with
    | Some _ => headers_buffer_append Py.CRLF
    | None => mthrow (AttributeError "_headers_buffer")
    end;;
    flush_headers
  else mret tt.

End BaseHTTPRequestHandler.

(** ** [server.py] *)

Definition PORT : Z := 9000.

Module CustomHandler.

(** The class attribute [extensions_map]. *)
Definition extensions_map : gmap string string :=
  list_to_map
    [ (".html", "text/html");
      (".css", "text/css");
      (".js", "application/javascript");
      (".json", "application/json");
      (".png", "image/png");
      (".jpg", "image/jpeg");
      (".jpeg", "image/jpeg");
      (".gif", "image/gif");
      (".svg", "image/svg+xml");
      (".ico", "image/x-icon");
      (".mp3", "audio/mpeg");
      (".wav", "audio/wav");
      ("", "application/octet-stream") ].

(** Log to stdout instead of stderr:
    [sys.stdout.write("%s - %s\n" % (self.address_string(), format % args))] *)
Definition log_message (fmt : string) (args : list Py.value) : M unit :=
  addr ← address_string;
  message ← format fmt args;
  line ← format ("%s - %s" +:+ Py.NL) [Py.VStr addr; Py.VStr message];
  stdout_write line.

(** Add CORS headers to allow all origins. *)
Definition end_headers : M unit :=
  send_header "Access-Control-Allow-Origin" "*";;
  BaseHTTPRequestHandler.end_headers.

Definition class : handler_class := HandlerClass log_message end_headers.

End CustomHandler.

(** ** The operating system's view of the served tree *)

Definition isdir (fs : string -> option node) (p : string) : bool :=
  match fs p with Some (Dir _) => true | _ => false end.

Definition isfile (fs : string -> option node) (p : string) : bool :=
  match fs p with Some (File _ _) => true | _ => false end.

(** [open(p, 'rb')]: [None] is an [OSError]. *)
Definition open_rb (fs : string -> option node) (p : string) : option fileobj :=
  match fs p with Some (File data mtime) => Some (FileObj p data mtime) | _ => None end.

(** [os.fstat(f.fileno())]: the size ([fs[6]]) and [st_mtime] of an open file. *)
Definition fstat (f : fileobj) : Z * Z :=
  match f with
  | FileObj _ data mtime => (Z.of_nat (String.length data), mtime)
  | BytesIO data => (Z.of_nat (String.length data), 0)
  end.

(** [os.listdir(p)]: [None] is an [OSError]. *)
Definition listdir (fs : string -> option node) (p : string) : option (list string) :=
  match fs p with Some (Dir (Some names)) => Some names | _ => None end.

(** [os.path.join(a, b)] for a relative [b]. *)
Definition path_join (a b : string) : string :=
  if (String.eqb a "" || Py.endswith a "/")%bool then a +:+ b else a +:+ "/" +:+ b.

(** [name in self.headers] and [self.headers[name]]: the first field of
    that name, compared without case. *)
Fixpoint header_get (name : string) (hs : list (string * string)) : option string :=
  match hs with
  | [] => None
  | (k, v) :: hs' =>
      if String.eqb (Py.lower k) (Py.lower name) then Some v else header_get name hs'
  end.

(** The [for index in "index.html", "index.htm"] loop of [send_head]. *)
Fixpoint find_index (fs : string -> option node) (p : string) (names : list string)
    : option string :=
  match names with
  | [] => None
  | index :: names' =>
      let index := path_join p index in
      if isfile fs index then Some index else find_index fs p names'
  end.

(** ** [SimpleHTTPRequestHandler.translate_path] *)

Module posixpath.

(** [dirname(p)]: what stands before the last slash, without the slashes
    at its end unless it is made of slashes only. *)
Definition dirname (p : string) : string :=
  let i := Py.rfind "/" p + 1 in
  let head := Py.slice_to p i in
  if (Py.truthy head && negb (String.eqb head (Py.times "/" (String.length head))))%bool
  then Py.rstrip_char "/" head
  else head.

(** [join(a, b)]: an absolute [b] replaces [a]. *)
Definition join (a b : string) : string :=
  if Py.startswith b "/" then b
  else if (negb (Py.truthy a) || Py.endswith a "/")%bool then a +:+ b
  else a +:+ "/" +:+ b.

End posixpath.

Module SimpleHTTPRequestHandler.

(** The test of the loop of [translate_path]:
    [os.path.dirname(word) or word in (os.curdir, os.pardir)]. *)
Definition not_simple (word : string) : bool :=
  (Py.truthy (posixpath.dirname word) || String.eqb word "." || String.eqb word "..")%bool.

(** [translate_path(path)] for the served directory [self.directory];
    [unquote] is [urllib.parse.unquote] as the method calls it, and
    [normpath] is [posixpath.normpath]. *)
Definition translate_path (directory : string) (unquote normpath : string -> string)
    (path : string) : string :=
  (* abandon query parameters *)
  let path := Py.before "?" path in
  let path := Py.before "#" path in
  let trailing_slash := Py.endswith (Py.rstrip path) "/" in
  let path := unquote path in
  let path := normpath path in
  let words := Py.split "/" path in
  let words := filter (fun word => Py.truthy word = true) words in
  let path :=
    fold_left
      (fun path word => if not_simple word then path else posixpath.join path word)
      words directory in
  if trailing_slash then path +:+ "/" else path.

End SimpleHTTPRequestHandler.

(** ** [BaseHTTPRequestHandler] and [SimpleHTTPRequestHandler]: the methods
    that answer a request *)

Section Handler.

Context (plat : platform) (cls : handler_class).

Definition log_request (code : Z) : M unit :=
  s ← get;
  cls.(log_message) (Py.DQUOTE +:+ "%s" +:+ Py.DQUOTE +:+ " %s %s")
    [Py.VStr (requestline (self s)); Py.VStr (Py.str code); Py.VStr "-"].

Definition log_error (fmt : string) (args : list Py.value) : M unit :=
  cls.(log_message) fmt args.

Definition send_response (code : Z) (message : option string) : M unit :=
  log_request code;;
  send_response_only code message;;
  send_header "Server" (version_string plat);;
  send_header "Date" (date_time_now plat).

Definition send_error (code : Z) (message explain : option string) : M unit :=
  let '(shortmsg, longmsg) := default ("???", "???") (responses !! code) in
  let message := default shortmsg message in
  let explain := default longmsg explain in
  log_error "code %d, message %s" [Py.VInt code; Py.VStr message];;
  send_response code (Some message);;
  send_header "Connection" "close";;
  body ←
    (if ((200 <=? code) && negb (bool_decide (code ∈ [204; 205; 304])))%bool then
       let body := error_page plat code message explain in
       send_header "Content-Type" error_content_type;;
       send_header "Content-Length" (Py.str (Z.of_nat (String.length body)));;
       mret (Some body)
     else mret None);
  cls.(end_headers);;
  s ← get;
  match body with
  | Some body =>
      if (negb (String.eqb (command (self s)) "HEAD") && Py.truthy body)%bool
      then wfile_write (Body body)
      else mret tt
  | None => mret tt
  end.

(** The test of [send_head] on [If-Modified-Since]: the file was not
    modified after the time the client gives. *)
Definition not_modified_since (hs : list (string * string)) (mtime : Z) : bool :=
  match header_get "If-Modified-Since" hs, header_get "If-None-Match" hs with
  | Some value, None =>
      match parsedate_utc plat value with
      | Some ims => mtime <=? ims
      | None => false
      end
  | _, _ => false
  end.

Definition list_directory (p : string) : M (option fileobj) :=
  s ← get;
  match listdir (fs s) p with
  | None =>
      send_error 404 (Some "No permission to list directory") None;;
      mret None
  | Some names =>
      let encoded := listing_page plat (fs s) (path (self s)) p names in
      send_response 200 None;;
      ctype ← format "text/html; charset=%s" [Py.VStr (filesystemencoding plat)];
      send_header "Content-type" ctype;;
      send_header "Content-Length" (Py.str (Z.of_nat (String.length encoded)));;
      cls.(end_headers);;
      mret (Some (BytesIO encoded))
  end.

(** [send_head] from [ctype = self.guess_type(path)] on. *)
Definition send_head_file (p : string) : M (option fileobj) :=
  s ← get;
  let ctype := guess_type (extensions_map s) (mimetypes_guess_type plat) p in
  if Py.endswith p "/" then
    send_error 404 (Some "File not found") None;;
    mret None
  else
    match open_rb (fs s) p with
    | None =>
        send_error 404 (Some "File not found") None;;
        mret None
    | Some f =>
        let '(size, mtime) := fstat f in
        if not_modified_since (headers (self s)) mtime then
          send_response 304 None;;
          cls.(end_headers);;
          mret None
        else
          send_response 200 None;;
          send_header "Content-type" ctype;;
          send_header "Content-Length" (Py.str size);;
          send_header "Last-Modified" (date_time_string plat mtime);;
          cls.(end_headers);;
          mret (Some f)
    end.

Definition send_head : M (option fileobj) :=
  s ← get;
  let p := translate_path plat (path (self s)) in
  if isdir (fs s) p then
    if negb (Py.endswith (urlsplit_path plat (path (self s))) "/") then
      send_response 301 None;;
      send_header "Location" (redirect_location plat (path (self s)));;
      send_header "Content-Length" "0";;
      cls.(end_headers);;
      mret None
    else
      match find_index (fs s) p ["index.html"; "index.htm"] with
      | Some index => send_head_file index
      | None => list_directory p
      end
  else send_head_file p.

(** [copyfile(f, self.wfile)]: the blocks [shutil.copyfileobj] writes,
    joined. *)
Definition copyfile (f : fileobj) : M unit := wfile_write (Body (read_all f)).

Definition do_GET : M unit :=
  f ← send_head;
  match f with
  | Some f => copyfile f
  | None => mret tt
  end.

Definition do_HEAD : M unit :=
  f ← send_head;
  mret tt.

(** [parse_request] on a well-formed request: the attributes of the
    request are assigned; as [protocol_version] is ["HTTP/1.0"], no
    version and no [Connection] field keeps the connection open. *)
Definition parse_request (r : request) : M bool :=
  modify (set_self r);;
  modify (set_close_connection true);;
  mret true.

(** The dispatch of [handle_one_request]: [getattr(self, 'do_' + command)]. *)
Definition dispatch : M unit :=
  s ← get;
  let command := command (self s) in
  if String.eqb command "GET" then do_GET
  else if String.eqb command "HEAD" then do_HEAD
  else
    send_error 501
      (Some ("Unsupported method (" +:+ repr plat command +:+ ")")) None.

(** [handle]: requests are read from the connection while
    [close_connection] is false; at the end of the input
    [handle_one_request] sets it. *)
Fixpoint handle_requests (conn : list request) : M unit :=
  match conn with
  | [] => modify (set_close_connection true)
  | r :: conn' =>
      parse_request r;;
      dispatch;;
      s ← get;
      if close_connection s then mret tt else handle_requests conn'
  end.

Definition handle (conn : list request) : M unit :=
  modify (set_close_connection true);;
  handle_requests conn.

End Handler.

(** ** [socketserver.TCPServer] and [main] *)

(** What the operating system delivers to the process while it waits in
    [serve_forever]: a connection with the requests the client sends on it,
    an interrupt signal ([KeyboardInterrupt] raised in the main thread), or
    another exception raised by [select]. *)
Inductive event :=
| Connection (client : string * Z) (conn : list request)
| Interrupt
| Fault (e : exn).

Section Server.

Context (plat : platform) (cls : handler_class).

Definition print (text : string) : M unit := stdout_write (text +:+ Py.NL).
Definition print_stderr (text : string) : M unit := stderr_write (text +:+ Py.NL).

Definition server_close : M unit := modify (set_socket Closed).

(** [TCPServer.__init__]: the socket is created, bound and put to listen;
    if that fails the socket is closed and the exception raised again. *)
Definition TCPServer (server_address : string * Z) : M unit :=
  (* self.socket = socket.socket(...) *)
  modify (set_socket Unbound);;
  try_except
    ((* server_bind *)
     match bind plat server_address with
     | Some msg => mthrow (OSError msg)
     | None => mret tt
     end;;
     (* server_activate *)
     modify (set_socket Listening))
    (fun e => Some (server_close;; mthrow e)).

Definition handle_error (client : string * Z) (e : exn) : M unit :=
  print_stderr "----------------------------------------";;
  print_stderr ("Exception occurred during processing of request from "
                +:+ repr_address plat client);;
  stderr_write (format_exc plat e);;
  print_stderr "----------------------------------------".

(** [finish_request]: a new handler instance, which has no
    [_headers_buffer] yet, handles the connection. *)
Definition finish_request (client : string * Z) (conn : list request) : M unit :=
  modify (set_headers_buffer None);;
  modify (set_client_address client);;
  modify (set_self no_request);;
  handle plat cls conn.

Definition _handle_request_noblock (client : string * Z) (conn : list request)
    : M unit :=
  try_except (finish_request client conn)
    (fun e =>
       match e with
       | KeyboardInterrupt => None
       | _ => Some (handle_error client e)
       end).

(** [serve_forever]: one event of the operating system after the other;
    when there is none left the process stays blocked in [select]. *)
Fixpoint serve_forever (events : list event) : M unit :=
  match events with
  | [] => block
  | Connection client conn :: events' =>
      _handle_request_noblock client conn;;
      serve_forever events'
  | Interrupt :: _ => mthrow KeyboardInterrupt
  | Fault e :: _ => mthrow e
  end.

End Server.

(** ** [main] and the script *)

Section Main.

Context (plat : platform).

(** Start HTTP server and print helpful message. *)
Definition main (events : list event) : M unit :=
  let handler := CustomHandler.class in
  (* with socketserver.TCPServer(("", PORT), handler) as httpd: *)
  TCPServer plat ("", PORT);;
  try_finally
    (print (Py.NL +:+ "-----------------------------------------");;
     print ("Server running at http://localhost:" +:+ Py.str PORT +:+ "/");;
     print "-----------------------------------------";;
     print "Open your browser to view the game!";;
     print ("Press Ctrl+C to stop the server" +:+ Py.NL);;
     try_except
       (serve_forever plat handler events)
       (fun e =>
          match e with
          | KeyboardInterrupt => Some (print (Py.NL +:+ "Server stopped."))
          | _ => None
          end))
    server_close.


(** The state in which the interpreter reaches
    [if __name__ == "__main__": main()]: the class body has bound
    [extensions_map], no socket exists. *)
Definition initial (fs : string -> option node) : state :=
  State CustomHandler.extensions_map fs NoSocket ("", 0) no_request true None.


End Main.

(** * Vocabulary of the properties

    The lines of the log and of the header block as the handler formats
    them, the state and the output of the handler after a sequence of
    header fields, the shapes of an answer, projections of the output, and
    a platform and a served directory to run the server on. *)

Definition is_09 (s : state) : bool := String.eqb (request_version (self s)) "HTTP/0.9".

Definition header_line (k v : string) : string := k +:+ ": " +:+ v +:+ Py.CRLF.

Definition status_line (code : Z) (message : string) : string :=
  protocol_version +:+ " " +:+ Py.str code +:+ " " +:+ message +:+ Py.CRLF.

Definition log_line (client : string * Z) (message : string) : string :=
  fst client +:+ " - " +:+ message +:+ Py.NL.

Definition access_line (client : string * Z) (r : request) (code : Z) : string :=
  log_line client
    (Py.DQUOTE +:+ requestline r +:+ Py.DQUOTE +:+ " " +:+ Py.str code +:+ " -").

Definition error_line (client : string * Z) (code : Z) (message : string) : string :=
  log_line client ("code " +:+ Py.str code +:+ ", message " +:+ message).

Definition cors_line : string := header_line "Access-Control-Allow-Origin" "*".

(** The handler after [lines] were appended to its header buffer (nothing
    is buffered for an HTTP/0.9 request). *)
Definition append_headers (lines : list string) (s : state) : state :=
  if is_09 s then s
  else set_headers_buffer (Some (default [] (_headers_buffer s) ++ lines)) s.

(** What [end_headers] writes when [pending] was buffered since state [s]. *)
Definition flush_out (pending : list string) (s : state) : list output :=
  if is_09 s then []
  else [Wfile (Head (default [] (_headers_buffer s) ++ pending ++ [cors_line; Py.CRLF]))].

Definition flushed (s : state) : state :=
  if is_09 s then s else set_headers_buffer (Some []) s.

Definition reason (code : Z) (message : option string) : string :=
  match message with
  | Some m => m
  | None => match responses !! code with Some (phrase, _) => phrase | None => "" end
  end.

Section ResponseVocabulary.
Context (plat : platform).

Definition response_head (code : Z) (message : option string) : list string :=
  [status_line code (reason code message);
   header_line "Server" (version_string plat);
   header_line "Date" (date_time_now plat)].

Definition error_has_body (code : Z) : bool :=
  ((200 <=? code) && negb (bool_decide (code ∈ [204; 205; 304])))%bool.

Definition error_message (code : Z) (message : option string) : string :=
  default (fst (default ("???", "???") (responses !! code))) message.

Definition error_explain (code : Z) (explain : option string) : string :=
  default (snd (default ("???", "???") (responses !! code))) explain.

Definition error_body (code : Z) (message explain : option string) : string :=
  error_page plat code (error_message code message) (error_explain code explain).

Definition error_head (code : Z) (message explain : option string) : list string :=
  response_head code (Some (error_message code message))
  ++ [header_line "Connection" "close"]
  ++ (if error_has_body code then
        [header_line "Content-Type" error_content_type;
         header_line "Content-Length"
           (Py.str (Z.of_nat (String.length (error_body code message explain))))]
      else []).

Definition error_out (code : Z) (message explain : option string) (s : state)
    : list output :=
  [Stdout (error_line (client_address s) code (error_message code message));
   Stdout (access_line (client_address s) (self s) code)]
  ++ flush_out (error_head code message explain) s
  ++ (if (error_has_body code
          && negb (String.eqb (command (self s)) "HEAD")
          && Py.truthy (error_body code message explain))%bool
      then [Wfile (Body (error_body code message explain))] else []).

(** What [send_head] sends for a file it serves. *)
Definition file_head (ctype : string) (size mtime : Z) : list string :=
  response_head 200 None
  ++ [header_line "Content-type" ctype;
      header_line "Content-Length" (Py.str size);
      header_line "Last-Modified" (date_time_string plat mtime)].

Definition listing_head (size : Z) : list string :=
  response_head 200 None
  ++ [header_line "Content-type" ("text/html; charset=" +:+ filesystemencoding plat);
      header_line "Content-Length" (Py.str size)].

Definition body_out (body : option string) : list output :=
  match body with Some data => [Wfile (Body data)] | None => [] end.

(** The two ways a request is answered: [send_response], header fields,
    [end_headers] and possibly a body; or [send_error]. *)
Inductive answered (s : state) : state -> list output -> Prop :=
| answered_sent code lines body :
    code ∈ [200; 301; 304] ->
    answered s (flushed s)
      (Stdout (access_line (client_address s) (self s) code) :: flush_out lines s ++ body_out body)
| answered_error code message :
    code ∈ [404; 501] ->
    answered s (set_close_connection true (flushed s))
      (error_out code (Some message) None s).

End ResponseVocabulary.

(** The handler instance when [dispatch] runs for the request [r]. *)
Definition serving (client : string * Z) (r : request) (s : state) : state :=
  State (extensions_map s) (fs s) (socket s) client r true None.

(** The lines written to [sys.stdout] and to [sys.stderr]. *)
Fixpoint stdout_of (o : list output) : list string :=
  match o with
  | [] => []
  | Stdout text :: o' => text :: stdout_of o'
  | _ :: o' => stdout_of o'
  end.

Fixpoint stderr_of (o : list output) : list string :=
  match o with
  | [] => []
  | Stderr text :: o' => text :: stderr_of o'
  | _ :: o' => stderr_of o'
  end.

(** The header blocks written to the connection. *)
Fixpoint heads_of (o : list output) : list (list string) :=
  match o with
  | [] => []
  | Wfile (Head lines) :: o' => lines :: heads_of o'
  | _ :: o' => heads_of o'
  end.



(** The start-up banner and the shutdown notice, as [print] writes them. *)
Definition banner : list output :=
  [Stdout (Py.NL +:+ "-----------------------------------------" +:+ Py.NL);
   Stdout ("Server running at http://localhost:9000/" +:+ Py.NL);
   Stdout ("-----------------------------------------" +:+ Py.NL);
   Stdout ("Open your browser to view the game!" +:+ Py.NL);
   Stdout ("Press Ctrl+C to stop the server" +:+ Py.NL +:+ Py.NL)].

Definition shutdown_notice : output :=
  Stdout (Py.NL +:+ "Server stopped." +:+ Py.NL).

(** Connections, as events of the server loop. *)
Definition connections (cs : list ((string * Z) * list request)) : list event :=
  map (fun c => Connection (fst c) (snd c)) cs.

(** How [serve_forever] ends on a list of events. *)
Fixpoint outcome_of (events : list event) : result unit :=
  match events with
  | [] => Blocked
  | Connection _ _ :: events' => outcome_of events'
  | Interrupt :: _ => Raise KeyboardInterrupt
  | Fault e :: _ => Raise e
  end.

(** [c in s] *)
Fixpoint occurs (c : ascii) (s : string) : bool :=
  match s with
  | EmptyString => false
  | String a s' => Ascii.eqb a c || occurs c s'
  end.

(** [s] is made of dots only. *)
Fixpoint all_dots (s : string) : bool :=
  match s with
  | EmptyString => true
  | String a s' => Ascii.eqb a "." && all_dots s'
  end.

Definition len (s : string) : Z := Z.of_nat (String.length s).

(** A name that may follow the served directory: not empty, not [.] or
    [..], and without a slash. *)
Definition simple_name (w : string) : Prop :=
  w <> "" /\ w <> "." /\ w <> ".." /\ occurs "/" w = false.

Definition octet_stream : string := "application/octet-stream".

(** The platform's guess, by default [application/octet-stream]. *)
Definition fallback_type (mimetypes_guess_type : string -> option string)
    (path : string) : string :=
  match mimetypes_guess_type path with
  | Some guess => if Py.truthy guess then guess else octet_stream
  | None => octet_stream
  end.

(** The extensions of the MIME table and their types. *)
Definition known_types : list (string * string) :=
  [ (".html", "text/html"); (".css", "text/css");
    (".js", "application/javascript"); (".json", "application/json");
    (".png", "image/png"); (".jpg", "image/jpeg"); (".jpeg", "image/jpeg");
    (".gif", "image/gif"); (".svg", "image/svg+xml"); (".ico", "image/x-icon");
    (".mp3", "audio/mpeg"); (".wav", "audio/wav") ].


(** ** A platform, a served directory and requests to run the server on *)

Module Demo.

Definition plat : platform :=
  {| translate_path := fun p => "/srv" +:+ p;
     urlsplit_path := fun p => p;
     redirect_location := fun p => p +:+ "/";
     mimetypes_guess_type :=
       fun p => if Py.endswith p ".txt" then Some "text/plain" else None;
     version_string := "SimpleHTTP/0.6 Python/3.11.2";
     date_time_now := "Tue, 03 Nov 2026 12:00:00 GMT";
     date_time_string := fun t => "Tue, 03 Nov 2026 10:00:00 GMT";
     parsedate_utc :=
       fun v => if String.eqb v "Tue, 03 Nov 2026 11:00:00 GMT" then Some 1793703600
                else None;
     error_page := fun code message explain =>
       "<h1>" +:+ Py.str code +:+ " " +:+ message +:+ "</h1><p>" +:+ explain +:+ "</p>";
     listing_page := fun _ _ p names => "<ul>" +:+ String.concat "," names +:+ "</ul>";
     filesystemencoding := "utf-8";
     repr := fun x => "'" +:+ x +:+ "'";
     repr_address := fun a => "('" +:+ fst a +:+ "', " +:+ Py.str (snd a) +:+ ")";
     stack_trace := fun e => "Traceback (most recent call last):" +:+ Py.NL;
     bind := fun _ => None |}.


(** The served directory: [index.html], [.html], [notes.txt], [LOGO.PNG]
    and the directory [assets]. *)
Definition files (p : string) : option node :=
  if String.eqb p "/srv/index.html" then Some (File "<h1>Hi</h1>" 1793700000)
  else if String.eqb p "/srv/.html" then Some (File "<p>dot</p>" 1793700000)
  else if String.eqb p "/srv/notes.txt" then Some (File "notes" 1793700000)
  else if String.eqb p "/srv/LOGO.PNG" then Some (File "PNG" 1793700000)
  else if String.eqb p "/srv/" then
    Some (Dir (Some ["index.html"; ".html"; "notes.txt"; "LOGO.PNG"; "assets"]))
  else if String.eqb p "/srv/assets" then Some (Dir (Some []))
  else None.


Definition client : string * Z := ("127.0.0.1", 50000).

Definition req (command path : string) (headers : list (string * string))
    : request :=
  Request (command +:+ " " +:+ path +:+ " HTTP/1.1") command path "HTTP/1.1" headers.



End Demo.

(** The same served directory with more below it: a directory without an
    index file, one that the process may not list, and one whose index
    file is [index.htm]. *)
Module Tree.

Definition files (p : string) : option node :=
  if String.eqb p "/srv/assets/" then Some (Dir (Some ["logo.png"; "theme.css"]))
  else if String.eqb p "/srv/private/" then Some (Dir None)
  else if String.eqb p "/srv/docs/" then Some (Dir (Some ["index.htm"]))
  else if String.eqb p "/srv/docs/index.htm" then Some (File "<p>docs</p>" 1793700000)
  else Demo.files p.

End Tree.

(** * Reasoning about statements

    [wp m s Q]: the statement [m], run in state [s], returns, and its value,
    final state and output satisfy [Q]. *)

Definition wp {A} (m : M A) (s : state) (Q : A -> state -> list output -> Prop) : Prop :=
  match m s with
  | (Ok a, s', o) => Q a s' o
  | _ => False
  end.
Arguments wp : simpl never.

(** * Lemmas *)

Lemma wp_ret {A} (a : A) s Q : Q a s [] -> wp (mret a) s Q.
Proof. exact id. Qed.

Lemma wp_bind {A B} (m : M A) (k : A -> M B) s Q :
  wp m s (fun a s1 o1 => wp (k a) s1 (fun b s2 o2 => Q b s2 (o1 ++ o2))) ->
  wp (m ≫= k) s Q.
Proof.
  unfold wp, mbind, M_bind. destruct (m s) as [[[a| |] s1] o1]; try done.
  destruct (k a s1) as [[[b| |] s2] o2]; done.
Qed.

Lemma wp_get s Q : Q s s [] -> wp get s Q.
Proof. exact id. Qed.
Lemma wp_modify f s Q : Q tt (f s) [] -> wp (modify f) s Q.
Proof. exact id. Qed.
Lemma wp_emit x s Q : Q tt s [x] -> wp (emit x) s Q.
Proof. exact id. Qed.

Lemma format_header k v :
  Py.format ("%s: %s" +:+ Py.CRLF) [Py.VStr k; Py.VStr v] = Some (header_line k v).
Proof. reflexivity. Qed.
Lemma format_status code m :
  Py.format ("%s %d %s" +:+ Py.CRLF) [Py.VStr protocol_version; Py.VInt code; Py.VStr m] = Some (status_line code m).
Proof. reflexivity. Qed.
Lemma format_access rl code :
  Py.format (Py.DQUOTE +:+ "%s" +:+ Py.DQUOTE +:+ " %s %s") [Py.VStr rl; Py.VStr (Py.str code); Py.VStr "-"]
   = Some (Py.DQUOTE +:+ rl +:+ Py.DQUOTE +:+ " " +:+ Py.str code +:+ " -").
Proof. reflexivity. Qed.

Ltac run_monad :=
  unfold wp, mbind, M_bind, mret, M_ret, mthrow, M_throw, get, modify, emit,
    stdout_write, stderr_write, wfile_write, format, headers_buffer_append.

Section StateLemmas.
Implicit Types (s : state) (lines : list string).

Lemma is_09_append_headers lines s : is_09 (append_headers lines s) = is_09 s.
Proof. unfold append_headers. destruct (is_09 s) eqn:E; exact E. Qed.

Lemma append_headers_app l1 l2 s :
  append_headers l2 (append_headers l1 s) = append_headers (l1 ++ l2) s.
Proof.
  unfold append_headers at 1. rewrite is_09_append_headers.
  unfold append_headers. destruct (is_09 s) eqn:E; [reflexivity|].
  unfold set_headers_buffer; simpl. now rewrite app_assoc.
Qed.

Lemma is_09_set_close_connection b s : is_09 (set_close_connection b s) = is_09 s.
Proof. reflexivity. Qed.

Lemma append_headers_set_close_connection lines b s :
  append_headers lines (set_close_connection b s)
  = set_close_connection b (append_headers lines s).
Proof. unfold append_headers, is_09. simpl. now destruct (String.eqb _ _). Qed.

Lemma flush_out_append_headers pending lines s :
  flush_out pending (append_headers lines s) = flush_out (lines ++ pending) s.
Proof.
  unfold flush_out. rewrite is_09_append_headers. unfold append_headers.
  destruct (is_09 s); [reflexivity|]. simpl. now rewrite <- !app_assoc.
Qed.

Lemma flush_out_set_close_connection pending b s :
  flush_out pending (set_close_connection b s) = flush_out pending s.
Proof. reflexivity. Qed.

Lemma flushed_append_headers lines s : flushed (append_headers lines s) = flushed s.
Proof.
  unfold flushed. rewrite is_09_append_headers. unfold append_headers.
  now destruct (is_09 s).
Qed.

Lemma flushed_set_close_connection b s :
  flushed (set_close_connection b s) = set_close_connection b (flushed s).
Proof. unfold flushed, is_09. simpl. now destruct (String.eqb _ _). Qed.

Lemma self_append_headers lines s : self (append_headers lines s) = self s.
Proof. unfold append_headers. now destruct (is_09 s). Qed.

Lemma self_flushed s : self (flushed s) = self s.
Proof. unfold flushed. now destruct (is_09 s). Qed.

Lemma client_address_append_headers lines s :
  client_address (append_headers lines s) = client_address s.
Proof. unfold append_headers. now destruct (is_09 s). Qed.

Lemma client_address_flushed s : client_address (flushed s) = client_address s.
Proof. unfold flushed. now destruct (is_09 s). Qed.
End StateLemmas.

Ltac norm_state :=
  repeat progress
    rewrite ?append_headers_set_close_connection, ?append_headers_app,
      ?flush_out_set_close_connection, ?flush_out_append_headers,
      ?flushed_set_close_connection, ?flushed_append_headers,
      ?self_append_headers, ?self_flushed, ?client_address_append_headers,
      ?client_address_flushed, ?app_nil_r.

Lemma wp_send_header k v s Q :
  String.eqb (Py.lower k) "connection" = false ->
  Q tt (append_headers [header_line k v] s) [] -> wp (send_header k v) s Q.
Proof.
  intros Hk HQ. unfold send_header, append_headers, is_09 in *. run_monad.
  rewrite format_header, Hk.
  destruct (String.eqb (request_version (self s)) "HTTP/0.9"); simpl; exact HQ.
Qed.

Lemma wp_send_header_close s Q :
  Q tt (set_close_connection true (append_headers [header_line "Connection" "close"] s)) [] ->
  wp (send_header "Connection" "close") s Q.
Proof.
  intros HQ. unfold send_header, append_headers, is_09 in *. run_monad.
  rewrite format_header.
  destruct (String.eqb (request_version (self s)) "HTTP/0.9"); simpl; exact HQ.
Qed.

Lemma wp_send_response_only code message s Q :
  Q tt (append_headers [status_line code (reason code message)] s) [] ->
  wp (send_response_only code message) s Q.
Proof.
  intros HQ. unfold send_response_only, append_headers, is_09, reason in *. run_monad.
  rewrite format_status.
  destruct (String.eqb (request_version (self s)) "HTTP/0.9"); simpl; exact HQ.
Qed.

Lemma wp_log_message fmt args text s Q :
  Py.format fmt args = Some text ->
  Q tt s [Stdout (log_line (client_address s) text)] ->
  wp (CustomHandler.log_message fmt args) s Q.
Proof.
  intros Hf HQ. unfold CustomHandler.log_message, address_string. run_monad.
  rewrite Hf. simpl. exact HQ.
Qed.

Lemma wp_base_end_headers s Q :
  (is_09 s = false -> _headers_buffer s <> None) ->
  Q tt (if is_09 s then s else set_headers_buffer (Some []) s)
       (if is_09 s then []
        else [Wfile (Head (default [] (_headers_buffer s) ++ [Py.CRLF]))]) ->
  wp BaseHTTPRequestHandler.end_headers s Q.
Proof.
  intros Hb HQ. unfold BaseHTTPRequestHandler.end_headers, flush_headers, is_09 in *.
  run_monad.
  destruct (String.eqb (request_version (self s)) "HTTP/0.9") eqn:E; simpl.
  - exact HQ.
  - destruct s as [em f so ca se cc [b|]]; simpl in *; [exact HQ | now destruct Hb].
Qed.

Lemma wp_end_headers s Q :
  Q tt (flushed s) (flush_out [] s) -> wp CustomHandler.end_headers s Q.
Proof.
  intros HQ. unfold CustomHandler.end_headers.
  apply wp_bind, wp_send_header; [reflexivity|].
  apply wp_base_end_headers.
  - rewrite is_09_append_headers. unfold append_headers. intros ->. discriminate.
  - rewrite is_09_append_headers. unfold flushed, flush_out, append_headers in *.
    destruct (is_09 s); [exact HQ|].
    simpl. rewrite <- app_assoc. exact HQ.
Qed.

Section HandlerSpecs.
Context (plat : platform).
Local Abbreviation cls := CustomHandler.class.

Lemma wp_log_request code s Q :
  Q tt s [Stdout (access_line (client_address s) (self s) code)] -> wp (log_request cls code) s Q.
Proof.
  intros HQ. unfold log_request. apply wp_bind, wp_get.
  eapply wp_log_message; [apply format_access|]. exact HQ.
Qed.

Lemma wp_send_response code message s Q :
  Q tt (append_headers (response_head plat code message) s) [Stdout (access_line (client_address s) (self s) code)] ->
  wp (send_response plat cls code message) s Q.
Proof.
  intros HQ. unfold send_response.
  apply wp_bind, wp_log_request.
  apply wp_bind, wp_send_response_only.
  apply wp_bind, wp_send_header; [reflexivity|].
  apply wp_send_header; [reflexivity|].
  rewrite !append_headers_app. exact HQ.
Qed.

Lemma append_empty_r (x : string) : x +:+ "" = x.
Proof.
  induction x as [|a x IH]; [reflexivity|].
  change (String a (x +:+ "") = String a x). now rewrite IH.
Qed.

Lemma format_error code message :
  Py.format "code %d, message %s" [Py.VInt code; Py.VStr message]
  = Some ("code " +:+ Py.str code +:+ ", message " +:+ message).
Proof.
  change (Py.format "code %d, message %s" [Py.VInt code; Py.VStr message])
    with (Some ("code " +:+ Py.str code +:+ ", message " +:+ message +:+ "")).
  now rewrite append_empty_r.
Qed.

Lemma wp_send_error code message explain s Q :
  Q tt (set_close_connection true (flushed s)) (error_out plat code message explain s) ->
  wp (send_error plat cls code message explain) s Q.
Proof.
  intros HQ. unfold send_error.
  destruct (default ("???", "???") (responses !! code)) as [shortmsg longmsg] eqn:Hr.
  unfold log_error. simpl.
  apply wp_bind. eapply wp_log_message; [apply format_error|].
  apply wp_bind, wp_send_response.
  apply wp_bind, wp_send_header_close.
  apply wp_bind.
  assert (Hm : default shortmsg message = error_message code message)
    by (unfold error_message; now rewrite Hr).
  assert (Hb : error_page plat code (default shortmsg message) (default longmsg explain)
               = error_body plat code message explain)
    by (unfold error_body, error_message, error_explain; now rewrite Hr).
  rewrite Hb, Hm.
  fold (error_has_body code).
  unfold error_out, error_head in HQ.
  destruct (error_has_body code) eqn:Hc.
  - apply wp_bind, wp_send_header; [reflexivity|].
    apply wp_bind, wp_send_header; [reflexivity|].
    apply wp_ret, wp_bind, wp_end_headers, wp_bind, wp_get.
    norm_state. simpl in *. norm_state.
    destruct (negb (String.eqb (command (self s)) "HEAD") && Py.truthy _)%bool;
      [apply wp_emit | apply wp_ret]; simpl; rewrite ?app_nil_r in *; exact HQ.
  - apply wp_ret, wp_bind, wp_end_headers, wp_bind, wp_get.
    norm_state. apply wp_ret. simpl in *. rewrite ?app_nil_r in *. exact HQ.
Qed.

Lemma wp_if {A} (b : bool) (m1 m2 : M A) s Q :
  (b = true -> wp m1 s Q) -> (b = false -> wp m2 s Q) ->
  wp (if b then m1 else m2) s Q.
Proof. destruct b; auto. Qed.

Lemma wp_send_head_file p s Q :
  (Py.endswith p "/" = true ->
   Q None (set_close_connection true (flushed s))
     (error_out plat 404 (Some "File not found") None s)) ->
  (Py.endswith p "/" = false -> open_rb (fs s) p = None ->
   Q None (set_close_connection true (flushed s))
     (error_out plat 404 (Some "File not found") None s)) ->
  (forall f, Py.endswith p "/" = false -> open_rb (fs s) p = Some f ->
     not_modified_since plat (headers (self s)) (snd (fstat f)) = true ->
     Q None (flushed s)
       (Stdout (access_line (client_address s) (self s) 304) :: flush_out (response_head plat 304 None) s)) ->
  (forall f, Py.endswith p "/" = false -> open_rb (fs s) p = Some f ->
     not_modified_since plat (headers (self s)) (snd (fstat f)) = false ->
     Q (Some f) (flushed s)
       (Stdout (access_line (client_address s) (self s) 200)
        :: flush_out
             (file_head plat (guess_type (extensions_map s) (mimetypes_guess_type plat) p)
                (fst (fstat f)) (snd (fstat f))) s)) ->
  wp (send_head_file plat cls p) s Q.
Proof.
  intros H1 H2 H3 H4. unfold send_head_file.
  apply wp_bind, wp_get. apply wp_if; intros He.
  - apply wp_bind, wp_send_error, wp_ret. rewrite app_nil_r. auto.
  - destruct (open_rb (fs s) p) as [f|] eqn:Ho.
    + specialize (H3 f He eq_refl). specialize (H4 f He eq_refl).
      destruct (fstat f) as [size mtime]. simpl in *.
      apply wp_if; intros Hn.
      * apply wp_bind, wp_send_response, wp_bind, wp_end_headers, wp_ret.
        norm_state. simpl. rewrite ?app_nil_r. auto.
      * apply wp_bind, wp_send_response.
        apply wp_bind, wp_send_header; [reflexivity|].
        apply wp_bind, wp_send_header; [reflexivity|].
        apply wp_bind, wp_send_header; [reflexivity|].
        apply wp_bind, wp_end_headers, wp_ret.
        norm_state. simpl. rewrite ?app_nil_r. auto.
    + apply wp_bind, wp_send_error, wp_ret. rewrite app_nil_r. auto.
Qed.

Lemma wp_list_directory p s Q :
  (listdir (fs s) p = None ->
   Q None (set_close_connection true (flushed s))
     (error_out plat 404 (Some "No permission to list directory") None s)) ->
  (forall names, listdir (fs s) p = Some names ->
     let encoded := listing_page plat (fs s) (path (self s)) p names in
     Q (Some (BytesIO encoded)) (flushed s)
       (Stdout (access_line (client_address s) (self s) 200)
        :: flush_out (listing_head plat (Z.of_nat (String.length encoded))) s)) ->
  wp (list_directory plat cls p) s Q.
Proof.
  intros H1 H2. unfold list_directory. apply wp_bind, wp_get.
  destruct (listdir (fs s) p) as [names|] eqn:Hl.
  - specialize (H2 names eq_refl). simpl in H2.
    apply wp_bind, wp_send_response. apply wp_bind.
    unfold format.
    change (Py.format "text/html; charset=%s" [Py.VStr (filesystemencoding plat)])
      with (Some ("text/html; charset=" +:+ filesystemencoding plat +:+ "")).
    rewrite append_empty_r. apply wp_ret.
    apply wp_bind, wp_send_header; [reflexivity|].
    apply wp_bind, wp_send_header; [reflexivity|].
    apply wp_bind, wp_end_headers, wp_ret.
    norm_state. simpl. rewrite ?app_nil_r. exact H2.
  - apply wp_bind, wp_send_error, wp_ret. rewrite app_nil_r. auto.
Qed.

Lemma answered_sent' s code lines body o :
  o = Stdout (access_line (client_address s) (self s) code) :: flush_out lines s ++ body_out body ->
  code ∈ [200; 301; 304] ->
  answered plat s (flushed s) o.
Proof. intros -> ?. now constructor. Qed.

Ltac shape :=
  unfold body_out; rewrite ?app_nil_r; simpl; rewrite ?app_nil_r; reflexivity.

Lemma send_head_answered s :
  wp (send_head plat cls) s (fun f s' o =>
    match f with
    | Some f =>
        s' = flushed s /\
        exists lines, o = Stdout (access_line (client_address s) (self s) 200) :: flush_out lines s
    | None => answered plat s s' o
    end).
Proof.
  unfold send_head. apply wp_bind, wp_get.
  assert (Hfile : forall p, wp (send_head_file plat cls p) s (fun f s' o =>
    match f with
    | Some f =>
        s' = flushed s /\
        exists lines, o = Stdout (access_line (client_address s) (self s) 200) :: flush_out lines s
    | None => answered plat s s' o
    end)).
  { intros p. apply wp_send_head_file; intros.
    - constructor. set_solver.
    - constructor. set_solver.
    - eapply answered_sent' with (body := None);
        [shape | set_solver].
    - eauto. }
  apply wp_if; intros Hd; [apply wp_if; intros Hs|].
  - apply wp_bind, wp_send_response.
    apply wp_bind, wp_send_header; [reflexivity|].
    apply wp_bind, wp_send_header; [reflexivity|].
    apply wp_bind, wp_end_headers, wp_ret. norm_state. simpl.
    eapply answered_sent' with (body := None); [shape | set_solver].
  - destruct (find_index _ _ _) as [index|]; [apply Hfile|].
    apply wp_list_directory; intros.
    + constructor. set_solver.
    + eauto.
  - apply Hfile.
Qed.

Lemma wp_conseq {A} (m : M A) s (Q Q' : A -> state -> list output -> Prop) :
  wp m s Q -> (forall a s' o, Q a s' o -> Q' a s' o) -> wp m s Q'.
Proof. unfold wp. destruct (m s) as [[[a| |] s'] o]; auto. Qed.

Lemma dispatch_answered s :
  wp (dispatch plat cls) s (fun _ s' o => answered plat s s' o).
Proof.
  unfold dispatch. apply wp_bind, wp_get. simpl.
  apply wp_if; intros Hg; [|apply wp_if; intros Hh].
  - unfold do_GET. apply wp_bind.
    eapply wp_conseq; [apply send_head_answered|].
    intros [f|] s' o; simpl.
    + intros [-> [lines ->]]. unfold copyfile. apply wp_emit.
      eapply answered_sent' with (body := Some (read_all f));
        [shape | set_solver].
    + intros H. apply wp_ret. now rewrite app_nil_r.
  - unfold do_HEAD. apply wp_bind.
    eapply wp_conseq; [apply send_head_answered|].
    intros [f|] s' o; simpl.
    + intros [-> [lines ->]]. apply wp_ret.
      eapply answered_sent' with (body := None);
        [shape | set_solver].
    + intros H. apply wp_ret. now rewrite app_nil_r.
  - apply wp_send_error. constructor. set_solver.
Qed.
End HandlerSpecs.

(** ** A connection *)

Lemma wp_run {A} (m : M A) s (Q : A -> state -> list output -> Prop) :
  wp m s Q -> exists a s' o, m s = (Ok a, s', o) /\ Q a s' o.
Proof.
  unfold wp. destruct (m s) as [[[a| |] s'] o]; try easy. intros H. eauto.
Qed.

Lemma wp_try_except {A} (m : M A) handler s Q :
  wp m s Q -> wp (try_except m handler) s Q.
Proof. unfold wp, try_except. now destruct (m s) as [[[a| |] s'] o]. Qed.

Lemma answered_close_connection plat s s' o :
  answered plat s s' o -> close_connection s = true -> close_connection s' = true.
Proof.
  intros [code lines body _|code message _] Hc; simpl; [|reflexivity].
  unfold flushed. now destruct (is_09 s).
Qed.

Section ConnectionSpecs.
Context (plat : platform).
Local Abbreviation cls := CustomHandler.class.

Lemma handle_requests_answered r conn s :
  wp (handle_requests plat cls (r :: conn)) s
    (fun _ s' o => answered plat (set_close_connection true (set_self r s)) s' o).
Proof.
  simpl. unfold parse_request.
  apply wp_bind, wp_bind, wp_modify, wp_bind, wp_modify, wp_ret, wp_bind.
  eapply wp_conseq; [apply dispatch_answered|].
  intros u s' o Ha. apply wp_bind, wp_get.
  rewrite (answered_close_connection _ _ _ _ Ha eq_refl).
  apply wp_ret. simpl. rewrite app_nil_r. exact Ha.
Qed.

Lemma finish_request_answered client r conn s :
  wp (finish_request plat cls client (r :: conn)) s
    (fun _ s' o => answered plat (serving client r s) s' o).
Proof.
  unfold finish_request, handle.
  apply wp_bind, wp_modify, wp_bind, wp_modify, wp_bind, wp_modify,
    wp_bind, wp_modify.
  eapply wp_conseq; [apply handle_requests_answered|].
  intros u s' o Ha. exact Ha.
Qed.

Lemma finish_request_empty client s :
  finish_request plat cls client [] s
  = (Ok tt, State (extensions_map s) (fs s) (socket s)
              client no_request true None, []).
Proof. reflexivity. Qed.

End ConnectionSpecs.

(** ** What a response looks like *)

Lemma stdout_of_app o1 o2 : stdout_of (o1 ++ o2) = stdout_of o1 ++ stdout_of o2.
Proof. induction o1 as [|[t|t|c] o1 IH]; simpl; now rewrite ?IH. Qed.

Lemma stderr_of_app o1 o2 : stderr_of (o1 ++ o2) = stderr_of o1 ++ stderr_of o2.
Proof. induction o1 as [|[t|t|c] o1 IH]; simpl; now rewrite ?IH. Qed.

Lemma heads_of_app o1 o2 : heads_of (o1 ++ o2) = heads_of o1 ++ heads_of o2.
Proof. induction o1 as [|[t|t|[l|d]] o1 IH]; simpl; now rewrite ?IH. Qed.


Lemma stdout_of_flush_out pending s : stdout_of (flush_out pending s) = [].
Proof. unfold flush_out. now destruct (is_09 s). Qed.

Lemma stderr_of_flush_out pending s : stderr_of (flush_out pending s) = [].
Proof. unfold flush_out. now destruct (is_09 s). Qed.

Lemma heads_of_flush_out pending s :
  heads_of (flush_out pending s)
  = if is_09 s then []
    else [(default [] (_headers_buffer s) ++ pending) ++ [cors_line; Py.CRLF]].
Proof. unfold flush_out. destruct (is_09 s); simpl; now rewrite ?app_assoc. Qed.

Lemma body_out_projections body :
  stdout_of (body_out body) = [] /\ stderr_of (body_out body) = []
  /\ heads_of (body_out body) = [].
Proof. now destruct body. Qed.

Section AnsweredFacts.
Context (plat : platform).

Lemma error_out_projections code message explain s :
  stdout_of (error_out plat code message explain s)
  = [error_line (client_address s) code (error_message code message); access_line (client_address s) (self s) code]
  /\ stderr_of (error_out plat code message explain s) = []
  /\ heads_of (error_out plat code message explain s)
     = if is_09 s then []
       else [(default [] (_headers_buffer s) ++ error_head plat code message explain)
             ++ [cors_line; Py.CRLF]].
Proof.
  unfold error_out. simpl.
  rewrite !stdout_of_app, !stderr_of_app, !heads_of_app, stdout_of_flush_out,
    stderr_of_flush_out, heads_of_flush_out.
  destruct (_ && _ && _)%bool; simpl; rewrite ?app_nil_r; auto.
Qed.


Lemma answered_stderr s s' o : answered plat s s' o -> stderr_of o = [].
Proof.
  intros [code lines body Hc|code message Hc].
  - simpl. rewrite stderr_of_app, stderr_of_flush_out. simpl.
    apply body_out_projections.
  - apply error_out_projections.
Qed.


(** What an answer leaves of the state. *)
Lemma answered_frame s s' o :
  answered plat s s' o ->
  extensions_map s' = extensions_map s /\ fs s' = fs s /\ socket s' = socket s.
Proof.
  intros [code lines body Hc|code message Hc]; unfold flushed;
    destruct (is_09 s); simpl; auto.
Qed.

End AnsweredFacts.

(** ** The answers to particular requests *)


Section Answers.
Context (plat : platform).
Local Abbreviation cls := CustomHandler.class.










End Answers.

(** ** The request handler *)

Section Requests.
Context (plat : platform).
Local Abbreviation cls := CustomHandler.class.




(** Every connection is handled to the end, without an exception. *)
Lemma finish_request_total client conn s :
  exists s' o,
    finish_request plat cls client conn s = (Ok tt, s', o)
    /\ match conn with
       | [] => o = [] /\ extensions_map s' = extensions_map s
               /\ fs s' = fs s /\ socket s' = socket s
       | r :: _ => answered plat (serving client r s) s' o
       end.
Proof.
  destruct conn as [|r conn].
  - rewrite finish_request_empty. eauto 10.
  - destruct (wp_run _ _ _ (finish_request_answered plat client r conn s))
      as ([] & s' & o & Hrun & Ha). eauto.
Qed.

Lemma finish_request_frame client conn s s' o res :
  finish_request plat cls client conn s = (res, s', o) ->
  res = Ok tt /\ extensions_map s' = extensions_map s /\ fs s' = fs s
  /\ socket s' = socket s /\ stderr_of o = [].
Proof.
  destruct (finish_request_total client conn s) as (s1 & o1 & Hrun & H).
  rewrite Hrun. intros [= <- <- <-]. split; [reflexivity|].
  destruct conn as [|r conn].
  - destruct H as (-> & ? & ? & ?). auto.
  - destruct (answered_frame _ _ _ _ H) as (? & ? & ?).
    pose proof (answered_stderr _ _ _ _ H). auto.
Qed.

End Requests.

(** ** The server loop and [main] *)

Section ServerSpecs.
Context (plat : platform).
Local Abbreviation cls := CustomHandler.class.
Local Abbreviation serve := (serve_forever plat cls).

(** No exception of a handler reaches [handle_error]. *)
Lemma _handle_request_noblock_eq client conn s :
  _handle_request_noblock plat cls client conn s
  = finish_request plat cls client conn s.
Proof.
  destruct (finish_request_total plat client conn s) as (s' & o & H & _).
  unfold _handle_request_noblock, try_except. now rewrite H.
Qed.

Lemma serve_forever_connection client conn events s :
  serve (Connection client conn :: events) s
  = (let '(_, s1, o1) := finish_request plat cls client conn s in
     let '(res, s2, o2) := serve events s1 in (res, s2, o1 ++ o2)).
Proof.
  simpl. unfold mbind, M_bind. rewrite _handle_request_noblock_eq.
  destruct (finish_request_total plat client conn s) as (s' & o & -> & _).
  reflexivity.
Qed.

(** The loop ends as its events say; it leaves the MIME table, the file
    system and the socket as they were and writes nothing to [stderr]. *)
Lemma serve_forever_spec events s :
  exists s' o,
    serve events s = (outcome_of events, s', o)
    /\ extensions_map s' = extensions_map s /\ fs s' = fs s
    /\ socket s' = socket s /\ stderr_of o = [].
Proof.
  revert s. induction events as [|[client conn| |e] events IH]; intros s.
  - exists s, []. now cbn.
  - rewrite serve_forever_connection.
    destruct (finish_request plat cls client conn s) as [[res s1] o1] eqn:Hf.
    apply finish_request_frame in Hf as (-> & H1 & H2 & H3 & H4).
    destruct (IH s1) as (s2 & o2 & -> & H1' & H2' & H3' & H4').
    exists s2, (o1 ++ o2). simpl. rewrite stderr_of_app, H4, H4'.
    repeat split; congruence.
  - exists s, []. now cbn.
  - exists s, []. now cbn.
Qed.

Lemma outcome_of_connections cs events :
  outcome_of (connections cs ++ events) = outcome_of events.
Proof. induction cs as [|[client conn] cs IH]; simpl; auto. Qed.

(** [main] around the loop: the banner, the loop, the notice after a
    [KeyboardInterrupt], and [server_close] on the way out. *)
Lemma main_spec (files : string -> option node) events :
  bind plat ("", PORT) = None ->
  exists s' o,
    serve events (set_socket Listening (initial files)) = (outcome_of events, s', o)
    /\ socket s' = Listening
    /\ extensions_map s' = CustomHandler.extensions_map /\ fs s' = files
    /\ stderr_of o = []
    /\ main plat events (initial files)
       = match outcome_of events with
         | Ok _ => (Ok tt, set_socket Closed s', banner ++ o)
         | Raise KeyboardInterrupt =>
             (Ok tt, set_socket Closed s', banner ++ o ++ [shutdown_notice])
         | Raise e => (Raise e, set_socket Closed s', banner ++ o)
         | Blocked => (Blocked, s', banner ++ o)
         end.
Proof.
  intros Hbind.
  destruct (serve_forever_spec events (set_socket Listening (initial files)))
    as (s' & o & Hs & H1 & H2 & H3 & H4).
  exists s', o. repeat split; try assumption.
  unfold main, TCPServer, try_finally, try_except, print, server_close.
  rewrite Hbind. run_monad. simpl.
  change (set_socket Listening (set_socket Unbound (initial files)))
    with (set_socket Listening (initial files)).
  rewrite Hs.
  destruct (outcome_of events) as [[]|[]|]; simpl; rewrite ?app_nil_r; reflexivity.
Qed.

End ServerSpecs.

(** ** File names and content types *)

Section Strings.
Implicit Types (s t : string) (c a : ascii) (i acc : Z).

Lemma app_String a s t : String a s +:+ t = String a (s +:+ t).
Proof. reflexivity. Qed.

Lemma len_String a s : len (String a s) = 1 + len s.
Proof. unfold len. simpl String.length. lia. Qed.

Lemma len_app s t : len (s +:+ t) = len s + len t.
Proof.
  induction s as [|a s IH]; [reflexivity|].
  rewrite app_String, !len_String, IH. lia.
Qed.

Lemma len_nonneg s : 0 <= len s.
Proof. unfold len. lia. Qed.

Lemma rfind_from_app c s t i acc :
  Py.rfind_from c (s +:+ t) i acc
  = Py.rfind_from c t (i + len s) (Py.rfind_from c s i acc).
Proof.
  revert i acc. induction s as [|a s IH]; intros i acc.
  - simpl. change (len "") with 0. now rewrite Z.add_0_r.
  - rewrite app_String. simpl Py.rfind_from. rewrite IH, len_String.
    f_equal. lia.
Qed.

Lemma rfind_from_absent c s i acc :
  occurs c s = false -> Py.rfind_from c s i acc = acc.
Proof.
  revert i acc. induction s as [|a s IH]; intros i acc H; [reflexivity|].
  simpl in *. apply orb_false_iff in H as [Ha Hs]. rewrite Ha. now apply IH.
Qed.

Lemma rfind_from_bounds c s i acc :
  acc < i -> -1 <= acc -> -1 <= Py.rfind_from c s i acc < i + len s.
Proof.
  revert i acc. induction s as [|a s IH]; intros i acc H1 H2.
  - simpl. change (len "") with 0. lia.
  - simpl Py.rfind_from. rewrite len_String.
    destruct (Ascii.eqb a c).
    + specialize (IH (i + 1) i). lia.
    + specialize (IH (i + 1) acc). lia.
Qed.

(** The last [c] of [s +:+ String c t] when [t] has none. *)
Lemma rfind_last c s t :
  occurs c t = false -> Py.rfind c (s +:+ String c t) = len s.
Proof.
  intros H. unfold Py.rfind. rewrite rfind_from_app. simpl Py.rfind_from.
  rewrite Ascii.eqb_refl. rewrite rfind_from_absent by exact H. lia.
Qed.

Lemma rfind_absent c s : occurs c s = false -> Py.rfind c s = -1.
Proof. apply rfind_from_absent. Qed.

Lemma occurs_app c s t : occurs c (s +:+ t) = occurs c s || occurs c t.
Proof.
  induction s as [|a s IH]; [reflexivity|].
  rewrite app_String. simpl. rewrite IH. now rewrite orb_assoc.
Qed.

Lemma take_app s t : Py.take (String.length s) (s +:+ t) = s.
Proof. induction s as [|a s IH]; [now destruct t|]. rewrite app_String. simpl. now rewrite IH. Qed.

Lemma drop_app s t : Py.drop (String.length s) (s +:+ t) = t.
Proof. induction s as [|a s IH]; [now destruct t|]. now rewrite app_String. Qed.

Lemma slice_to_app s t : Py.slice_to (s +:+ t) (len s) = s.
Proof. unfold Py.slice_to, len. rewrite Nat2Z.id. apply take_app. Qed.

Lemma slice_from_app s t : Py.slice_from (s +:+ t) (len s) = t.
Proof. unfold Py.slice_from, len. rewrite Nat2Z.id. apply drop_app. Qed.

Lemma slice_char s a t :
  Py.slice (s +:+ String a t) (len s) (len s + 1) = String a "".
Proof.
  unfold Py.slice, len. rewrite Nat2Z.id, drop_app.
  replace (Z.to_nat (Z.of_nat (String.length s) + 1 - Z.of_nat (String.length s)))
    with 1%nat by lia.
  now destruct t.
Qed.

Lemma app_assoc_string s t u : (s +:+ t) +:+ u = s +:+ (t +:+ u).
Proof. induction s as [|a s IH]; [reflexivity|]. rewrite !app_String. now rewrite IH. Qed.

(** The loop of [_splitext] stops at the first character of the file name
    that is not a dot. *)
Lemma skip_leading_dots_found pre stem rest fuel :
  all_dots stem = false ->
  (String.length stem <= fuel)%nat ->
  skip_leading_dots (pre +:+ stem +:+ rest) (len pre) (len pre + len stem) fuel
  = (Py.slice_to (pre +:+ stem +:+ rest) (len pre + len stem),
     Py.slice_from (pre +:+ stem +:+ rest) (len pre + len stem)).
Proof.
  revert pre fuel. induction stem as [|a stem IH]; intros pre fuel Hd Hf;
    [discriminate|].
  destruct fuel as [|fuel]; [simpl in Hf; lia|].
  simpl skip_leading_dots. rewrite len_String.
  pose proof (len_nonneg stem).
  replace (len pre <? len pre + (1 + len stem)) with true
    by (symmetry; apply Z.ltb_lt; lia).
  rewrite app_String, slice_char.
  simpl in Hd. destruct (Ascii.eqb a ".") eqn:Ha.
  - apply Ascii.eqb_eq in Ha. subst a. simpl in Hd.
    change (negb (String.eqb "." ".")) with false. cbv iota.
    specialize (IH (pre +:+ ".") fuel Hd).
    rewrite len_app in IH. change (len ".") with 1 in IH.
    rewrite !app_assoc_string in IH. change ("." +:+ stem +:+ rest) with (String "." (stem +:+ rest)) in IH.
    replace (len pre + 1 + len stem) with (len pre + (1 + len stem)) in IH by lia.
    apply IH. simpl in Hf. lia.
  - replace (negb (String.eqb (String a "") ".")) with true; [reflexivity|].
    symmetry. apply negb_true_iff. simpl. now rewrite Ha.
Qed.

(** ... and finds no extension when the name before the last dot is made of
    dots. *)
Lemma skip_leading_dots_none p i stem_len fuel :
  (forall j, (j < stem_len)%nat -> Py.slice p (i + Z.of_nat j) (i + Z.of_nat j + 1) = ".") ->
  skip_leading_dots p i (i + Z.of_nat stem_len) fuel = (p, "").
Proof.
  revert i stem_len. induction fuel as [|fuel IH]; intros i n H; [reflexivity|].
  simpl. destruct (i <? i + Z.of_nat n) eqn:Hlt; [|reflexivity].
  apply Z.ltb_lt in Hlt. destruct n as [|n]; [lia|].
  specialize (H 0%nat ltac:(lia)) as H0. simpl in H0. rewrite Z.add_0_r in H0.
  rewrite H0. change (negb (String.eqb "." ".")) with false. cbv iota.
  replace (i + Z.of_nat (S n)) with (i + 1 + Z.of_nat n) by lia.
  apply IH. intros j Hj. specialize (H (S j) ltac:(lia)).
  replace (i + 1 + Z.of_nat j) with (i + Z.of_nat (S j)) by lia. exact H.
Qed.

End Strings.

Lemma splitext_extension dir stem e :
  (dir = "" \/ exists d, dir = d +:+ "/") ->
  occurs "/" stem = false -> occurs "/" e = false -> occurs "." e = false ->
  all_dots stem = false ->
  splitext (dir +:+ stem +:+ String "." e) = (dir +:+ stem, String "." e).
Proof.
  intros Hdir Hs He Hd Hdots. unfold splitext.
  assert (Hrest : occurs "/" (stem +:+ String "." e) = false).
  { rewrite occurs_app, Hs. simpl. exact He. }
  assert (Hsep : Py.rfind "/" (dir +:+ stem +:+ String "." e) + 1 = len dir).
  { destruct Hdir as [->|[d ->]].
    - change ("" +:+ stem +:+ String "." e) with (stem +:+ String "." e).
      now rewrite rfind_absent.
    - rewrite app_assoc_string.
      change ("/" +:+ stem +:+ String "." e) with (String "/" (stem +:+ String "." e)).
      rewrite rfind_last by exact Hrest.
      rewrite len_app. reflexivity. }
  assert (Hdot : Py.rfind "." (dir +:+ stem +:+ String "." e) = len dir + len stem).
  { rewrite <- app_assoc_string, rfind_last by exact Hd. apply len_app. }
  pose proof (len_nonneg stem) as Hn.
  rewrite Hdot.
  replace (len dir + len stem >? Py.rfind "/" (dir +:+ stem +:+ String "." e)) with true
    by (symmetry; apply Z.gtb_lt; lia).
  rewrite Hsep, skip_leading_dots_found.
  - rewrite <- len_app, <- app_assoc_string.
    now rewrite slice_to_app, slice_from_app.
  - exact Hdots.
  - unfold len in *. lia.
Qed.


(** The keys of the MIME table are in lower case. *)
Lemma extensions_map_lower ext ty :
  CustomHandler.extensions_map !! ext = Some ty -> Py.lower ext = ext.
Proof.
  intros H. apply elem_of_list_to_map_2 in H.
  repeat (apply elem_of_cons in H as [H|H]; [injection H as -> ->; reflexivity|]).
  now apply elem_of_nil in H.
Qed.

Lemma guess_type_lower mt path :
  guess_type CustomHandler.extensions_map mt path
  = match CustomHandler.extensions_map !! Py.lower (snd (splitext path)) with
    | Some ty => ty
    | None => fallback_type mt path
    end.
Proof.
  unfold guess_type. destruct (splitext path) as [base ext]. simpl snd.
  destruct (CustomHandler.extensions_map !! ext) as [ty|] eqn:H.
  - now rewrite (extensions_map_lower _ _ H), H.
  - reflexivity.
Qed.

(** * The claims *)

(** ** The CORS header *)



(** ** The log *)



(** ** The state of the server *)



(** ** Files *)





(** ** Paths that do not exist *)





(** ** Content types *)

Lemma known_types_spec ext ty :
  (ext, ty) ∈ known_types ->
  CustomHandler.extensions_map !! ext = Some ty
  /\ Py.endswith ext "/" = false
  /\ exists e, ext = String "." e /\ occurs "." e = false /\ occurs "/" e = false.
Proof.
  intros H. unfold known_types in H.
  repeat (apply elem_of_cons in H as [H|H];
          [injection H as -> ->;
           split; [reflexivity|]; split; [reflexivity|];
           eexists; split; [reflexivity|]; split; reflexivity|]).
  now apply elem_of_nil in H.
Qed.











(** ** Start-up and shutdown *)





(** C10. Whichever exception ends [serve_forever], the listening socket,
    open while the loop ran, is closed when [main] is left, by the
    [__exit__] of the server: after a [KeyboardInterrupt] [main] returns,
    and its output is the banner, the output of the loop and the shutdown
    notice; after any other exception [main] raises that exception, and its
    output is the banner and the output of the loop, without the notice. *)
Theorem socket_is_closed_on_every_exit (plat : platform)
    (files : string -> option node)
    (cs : list ((string * Z) * list request)) (rest : list event) (e : exn) :
  bind plat ("", 9000) = None ->
  e <> KeyboardInterrupt ->
  (exists s1 s' served,
     serve_forever plat CustomHandler.class
       (connections cs ++ Interrupt :: rest) (set_socket Listening (initial files))
     = (Raise KeyboardInterrupt, s1, served)
     /\ socket s1 = Listening
     /\ main plat (connections cs ++ Interrupt :: rest) (initial files)
        = (Ok tt, s', banner ++ served ++ [shutdown_notice])
     /\ socket s' = Closed)
  /\ (exists s1 s' served,
        serve_forever plat CustomHandler.class
          (connections cs ++ Fault e :: rest) (set_socket Listening (initial files))
        = (Raise e, s1, served)
        /\ socket s1 = Listening
        /\ main plat (connections cs ++ Fault e :: rest) (initial files)
           = (Raise e, s', banner ++ served)
        /\ socket s' = Closed).
Proof.
  intros Hbind He. split.
  - destruct (main_spec plat files (connections cs ++ Interrupt :: rest) Hbind)
      as (s1 & o & Hs & Hl & _ & _ & _ & Hmain).
    rewrite outcome_of_connections in Hs, Hmain. simpl in Hs, Hmain.
    exists s1, (set_socket Closed s1), o. auto.
  - destruct (main_spec plat files (connections cs ++ Fault e :: rest) Hbind)
      as (s1 & o & Hs & Hl & _ & _ & _ & Hmain).
    rewrite outcome_of_connections in Hs, Hmain. simpl in Hs, Hmain.
    exists s1, (set_socket Closed s1), o. repeat split; try assumption.
    rewrite Hmain. now destruct e.
Qed.

Lemma socket_is_closed_on_every_exit_witness :
  bind Demo.plat ("", 9000) = None
  /\ OSError "select" <> KeyboardInterrupt
  /\ (exists s1 s' served,
        serve_forever Demo.plat CustomHandler.class
          (connections [(Demo.client, [Demo.req "GET" "/index.html" []])]
           ++ Fault (OSError "select") :: [])
          (set_socket Listening (initial Demo.files))
        = (Raise (OSError "select"), s1, served)
        /\ socket s1 = Listening
        /\ main Demo.plat
             (connections [(Demo.client, [Demo.req "GET" "/index.html" []])]
              ++ Fault (OSError "select") :: [])
             (initial Demo.files)
           = (Raise (OSError "select"), s', banner ++ served)
        /\ socket s' = Closed).
Proof.
  split; [reflexivity|]. split; [discriminate|].
  exact (proj2 (socket_is_closed_on_every_exit Demo.plat Demo.files
                  [(Demo.client, [Demo.req "GET" "/index.html" []])] []
                  (OSError "select") eq_refl ltac:(discriminate))).
Defined.

(** * Further properties of the handler and of [main] *)

(** ** Errors *)





(** ** GET and HEAD *)








(** ** Directories *)

Lemma take_drop n (x : string) : Py.take n x +:+ Py.drop n x = x.
Proof.
  revert x. induction n as [|n IH]; intros [|a x]; try reflexivity.
  simpl. change (String a (Py.take n x) +:+ Py.drop n x)
    with (String a (Py.take n x +:+ Py.drop n x)). now rewrite IH.
Qed.









(** ** Regular files: the edges *)









(** ** HEAD, and the end of a connection *)








(** ** The server loop *)








(** ** The log *)

Lemma format_log addr message :
  Py.format ("%s - %s" +:+ Py.NL) [Py.VStr addr; Py.VStr message]
  = Some (addr +:+ " - " +:+ message +:+ Py.NL).
Proof. reflexivity. Qed.


(** ** The MIME table *)

Lemma lower_ascii_dot a : Ascii.eqb (Py.lower_ascii a) "." = Ascii.eqb a ".".
Proof. destruct a as [[] [] [] [] [] [] [] []]; reflexivity. Qed.

Lemma lower_ascii_slash a : Ascii.eqb (Py.lower_ascii a) "/" = Ascii.eqb a "/".
Proof. destruct a as [[] [] [] [] [] [] [] []]; reflexivity. Qed.

Lemma occurs_lower_dot e : occurs "." (Py.lower e) = occurs "." e.
Proof. induction e as [|a e IH]; [reflexivity|]. simpl. now rewrite lower_ascii_dot, IH. Qed.

Lemma occurs_lower_slash e : occurs "/" (Py.lower e) = occurs "/" e.
Proof. induction e as [|a e IH]; [reflexivity|]. simpl. now rewrite lower_ascii_slash, IH. Qed.

(** The case of the extension does not matter: a file name whose extension
    is, in any mixture of upper and lower case, one of the twelve
    extensions of the MIME table gets the type of the table, and the
    platform's [mimetypes] is not asked. *)
Theorem extension_case_is_ignored (mt : string -> option string)
    (dir stem e ext ty : string) :
  (ext, ty) ∈ known_types ->
  Py.lower (String "." e) = ext ->
  dir = "" \/ (exists d, dir = d +:+ "/") ->
  occurs "/" stem = false ->
  all_dots stem = false ->
  guess_type CustomHandler.extensions_map mt (dir +:+ stem +:+ String "." e) = ty.
Proof.
  intros Hk Hl Hdir Hs Hd.
  destruct (known_types_spec _ _ Hk) as (Ht & _ & e0 & -> & H1 & H2).
  injection Hl as Hl.
  assert (He1 : occurs "." e = false) by (now rewrite <- occurs_lower_dot, Hl).
  assert (He2 : occurs "/" e = false) by (now rewrite <- occurs_lower_slash, Hl).
  rewrite guess_type_lower, splitext_extension by assumption.
  simpl snd. change (Py.lower (String "." e)) with (String "." (Py.lower e)).
  now rewrite Hl, Ht.
Qed.

Lemma extension_case_is_ignored_witness :
  (".jpeg", "image/jpeg") ∈ known_types
  /\ Py.lower (String "." "JpEG") = ".jpeg"
  /\ ("/srv/photos/" = "" \/ exists d, "/srv/photos/" = d +:+ "/")
  /\ occurs "/" "IMG_0001.final" = false
  /\ all_dots "IMG_0001.final" = false
  /\ guess_type CustomHandler.extensions_map (fun _ => Some "application/x-unknown")
       ("/srv/photos/" +:+ "IMG_0001.final" +:+ String "." "JpEG") = "image/jpeg".
Proof.
  assert (Hk : (".jpeg", "image/jpeg") ∈ known_types) by (repeat constructor).
  assert (Hd : "/srv/photos/" = "" \/ exists d, "/srv/photos/" = d +:+ "/")
    by (right; now exists "/srv/photos").
  split; [exact Hk|]. split; [reflexivity|]. split; [exact Hd|].
  do 2 (split; [reflexivity|]).
  exact (extension_case_is_ignored (fun _ => Some "application/x-unknown")
           "/srv/photos/" "IMG_0001.final" "JpEG" ".jpeg" "image/jpeg"
           Hk eq_refl Hd eq_refl eq_refl).
Defined.

(** The content type is never empty: whatever the path and whatever the
    platform's [mimetypes] answers, [guess_type] over the MIME table of
    [CustomHandler] returns a non-empty string. *)
Theorem content_type_is_never_empty (mt : string -> option string) (path : string) :
  Py.truthy (guess_type CustomHandler.extensions_map mt path) = true.
Proof.
  rewrite guess_type_lower.
  destruct (CustomHandler.extensions_map !! Py.lower (snd (splitext path)))
    as [ty|] eqn:H.
  - apply elem_of_list_to_map_2 in H.
    repeat (apply elem_of_cons in H as [H|H]; [injection H as _ ->; reflexivity|]).
    now apply elem_of_nil in H.
  - unfold fallback_type. destruct (mt path) as [guess|]; [|reflexivity].
    destruct (Py.truthy guess) eqn:Hg; [exact Hg | reflexivity].
Qed.

(** ** [splitext] on any path *)

Lemma len_String_eq a (x : string) : len (String a x) = 1 + len x.
Proof. unfold len. simpl String.length. lia. Qed.

(** [rfind] either finds nothing or points at the last occurrence. *)
Lemma rfind_from_spec c (x : string) i acc :
  (occurs c x = false /\ Py.rfind_from c x i acc = acc)
  \/ exists pre post,
       x = pre +:+ String c post /\ occurs c post = false
       /\ Py.rfind_from c x i acc = i + len pre.
Proof.
  revert i acc. induction x as [|a x IH]; intros i acc; [left; auto|].
  simpl Py.rfind_from.
  destruct (IH (i + 1) (if Ascii.eqb a c then i else acc))
    as [(Ho & Hr) | (pre & post & -> & Ho & Hr)].
  - destruct (Ascii.eqb a c) eqn:E.
    + right. apply Ascii.eqb_eq in E as ->. exists "", x.
      split; [reflexivity|]. split; [exact Ho|]. rewrite Hr.
      change (len "") with 0. lia.
    + left. simpl. now rewrite E, Ho.
  - right. exists (String a pre), post. split; [reflexivity|]. split; [exact Ho|].
    rewrite Hr, len_String_eq. lia.
Qed.

Lemma skip_leading_dots_cases p i j fuel :
  skip_leading_dots p i j fuel = (p, "")
  \/ skip_leading_dots p i j fuel = (Py.slice_to p j, Py.slice_from p j).
Proof.
  revert i. induction fuel as [|fuel IH]; intros i; [left; reflexivity|].
  simpl. destruct (i <? j); [|left; reflexivity].
  destruct (negb _); [right; reflexivity | apply IH].
Qed.

(** [splitext] cuts a path in two without losing a character, and what it
    splits off is either empty or a dot followed by characters that are
    neither a dot nor a slash: no other string is ever looked up in the
    MIME table. *)
Theorem splitext_parts (p : string) :
  fst (splitext p) +:+ snd (splitext p) = p
  /\ (snd (splitext p) = ""
      \/ exists e, snd (splitext p) = String "." e
                   /\ occurs "." e = false /\ occurs "/" e = false).
Proof.
  unfold splitext.
  destruct (Py.rfind "." p >? Py.rfind "/" p) eqn:Hgt;
    [|simpl; split; [apply append_empty_r | now left]].
  apply Z.gtb_lt in Hgt.
  destruct (skip_leading_dots_cases p (Py.rfind "/" p + 1) (Py.rfind "." p)
              (Z.to_nat (Py.rfind "." p - Py.rfind "/" p))) as [-> | ->];
    [simpl; split; [apply append_empty_r | now left]|].
  simpl fst. simpl snd.
  split; [unfold Py.slice_to, Py.slice_from; apply take_drop|].
  pose proof (rfind_from_bounds "/" p 0 (-1) ltac:(lia) ltac:(lia)) as Hsep.
  fold (Py.rfind "/" p) in Hsep.
  destruct (rfind_from_spec "." p 0 (-1)) as [(_ & Hr) | (pre & post & Hp & Ho & Hr)];
    fold (Py.rfind "." p) in Hr; [lia|].
  subst p.
  rewrite Hr, Z.add_0_l, slice_from_app. right. exists post.
  split; [reflexivity|]. split; [exact Ho|].
  destruct (occurs "/" post) eqn:Hs; [exfalso | reflexivity].
  rewrite Hr in Hgt.
  unfold Py.rfind in Hgt. rewrite rfind_from_app in Hgt. simpl Py.rfind_from in Hgt.
  match type of Hgt with
  | context [Py.rfind_from "/" post ?i ?acc] =>
      destruct (rfind_from_spec "/" post i acc)
        as [(Ho' & _) | (pre' & post' & _ & _ & Hr')]; [congruence|];
      rewrite Hr' in Hgt
  end.
  pose proof (len_nonneg pre'). lia.
Qed.

(** ** The path of the file that is opened *)

Lemma split_no_sep c (x : string) : Forall (fun w => occurs c w = false) (Py.split c x).
Proof.
  induction x as [|a x IH]; [repeat constructor|].
  simpl. destruct (Ascii.eqb a c) eqn:E; [constructor; [reflexivity | exact IH]|].
  destruct (Py.split c x) as [|w ws]; [repeat constructor; simpl; now rewrite E|].
  inversion IH as [|? ? Hw Hws]; subst. constructor; [|exact Hws].
  simpl. now rewrite E, Hw.
Qed.

Lemma dirname_simple w : occurs "/" w = false -> posixpath.dirname w = "".
Proof.
  intros H. unfold posixpath.dirname. rewrite (rfind_absent "/" w H). reflexivity.
Qed.

Lemma startswith_slash w : occurs "/" w = false -> Py.startswith w "/" = false.
Proof.
  destruct w as [|a w]; [reflexivity|]. simpl. intros H.
  apply orb_false_iff in H as [H _]. unfold Py.startswith. simpl.
  destruct w; simpl; now rewrite ?H.
Qed.

Lemma join_simple a w : occurs "/" w = false -> posixpath.join a w = path_join a w.
Proof.
  intros H. unfold posixpath.join, path_join. rewrite (startswith_slash w H).
  unfold Py.truthy. now rewrite negb_involutive.
Qed.

Lemma translate_path_loop words directory :
  Forall (fun w => occurs "/" w = false) words ->
  exists names,
    fold_left
      (fun path word =>
         if SimpleHTTPRequestHandler.not_simple word then path
         else posixpath.join path word)
      (filter (fun word => Py.truthy word = true) words) directory
    = fold_left path_join names directory
    /\ Forall simple_name names.
Proof.
  intros H. revert directory. induction H as [|w words Hw _ IH]; intros directory.
  - exists []. split; [reflexivity | constructor].
  - rewrite filter_cons. destruct (decide (Py.truthy w = true)) as [Ht|Ht]; [|apply IH].
    simpl. unfold SimpleHTTPRequestHandler.not_simple.
    rewrite (dirname_simple w Hw). simpl.
    destruct (String.eqb w ".") eqn:E1; [apply IH|].
    destruct (String.eqb w "..") eqn:E2; [apply IH|].
    simpl. rewrite (join_simple _ _ Hw).
    destruct (IH (path_join directory w)) as (names & Hn & Hs).
    exists (w :: names). split; [exact Hn|]. constructor; [|exact Hs].
    apply String.eqb_neq in E1, E2. repeat split; try assumption.
    intros ->. discriminate.
Qed.

(** The file name the handler opens never leaves the served directory:
    whatever the request path is, and whatever [unquote] and [normpath]
    make of it, [translate_path] returns the served directory extended,
    name by name, with names that are not empty, are not [.] or [..] and
    hold no slash, followed by a slash if the request path (without query
    and fragment) ends with one. *)
Theorem translate_path_stays_in_the_directory (directory : string)
    (unquote normpath : string -> string) (path : string) :
  exists names,
    SimpleHTTPRequestHandler.translate_path directory unquote normpath path
    = fold_left path_join names directory
      +:+ (if Py.endswith (Py.rstrip (Py.before "#" (Py.before "?" path))) "/"
           then "/" else "")
    /\ Forall simple_name names.
Proof.
  unfold SimpleHTTPRequestHandler.translate_path.
  destruct (translate_path_loop
              (Py.split "/" (normpath (unquote (Py.before "#" (Py.before "?" path)))))
              directory (split_no_sep "/" _)) as (names & -> & Hs).
  exists names. split; [|exact Hs].
  destruct (Py.endswith _ "/"); [reflexivity | now rewrite append_empty_r].
Qed.

Lemma before_app c (x y : string) :
  occurs c x = false -> Py.before c (x +:+ String c y) = x.
Proof.
  induction x as [|a x IH]; intros H.
  - simpl. now rewrite Ascii.eqb_refl.
  - simpl in H. apply orb_false_iff in H as [Ha Hx].
    rewrite app_String. simpl. now rewrite Ha, IH.
Qed.

Lemma before_absent c (x : string) : occurs c x = false -> Py.before c x = x.
Proof.
  induction x as [|a x IH]; intros H; [reflexivity|].
  simpl in H. apply orb_false_iff in H as [Ha Hx]. simpl. now rewrite Ha, IH.
Qed.

(** The query and the fragment of a request path do not select the file:
    [translate_path] gives the same file name for a path followed by
    [?query] or [#fragment] as for the path alone. *)
Theorem query_does_not_select_the_file (directory : string)
    (unquote normpath : string -> string) (path query : string) :
  occurs "?" path = false ->
  occurs "#" path = false ->
  SimpleHTTPRequestHandler.translate_path directory unquote normpath
    (path +:+ String "?" query)
  = SimpleHTTPRequestHandler.translate_path directory unquote normpath path
  /\ SimpleHTTPRequestHandler.translate_path directory unquote normpath
       (path +:+ String "#" query)
     = SimpleHTTPRequestHandler.translate_path directory unquote normpath path.
Proof.
  intros Hq Hf. unfold SimpleHTTPRequestHandler.translate_path.
  rewrite (before_app "?" path query Hq), (before_absent "?" path Hq).
  rewrite (before_absent "#" path Hf).
  split; [reflexivity|].
  assert (H : Py.before "?" (path +:+ String "#" query)
              = path +:+ String "#" (Py.before "?" query)).
  { clear Hf. induction path as [|a x IH]; [reflexivity|].
    simpl in Hq. apply orb_false_iff in Hq as [Ha Hx].
    rewrite !app_String. simpl. now rewrite Ha, IH. }
  now rewrite H, (before_app "#" path _ Hf).
Qed.

Lemma query_does_not_select_the_file_witness :
  occurs "?" "/index.html" = false
  /\ occurs "#" "/index.html" = false
  /\ SimpleHTTPRequestHandler.translate_path "/srv" (fun p => p) (fun p => p)
       ("/index.html" +:+ String "?" "v=3")
     = "/srv/index.html"
  /\ SimpleHTTPRequestHandler.translate_path "/srv" (fun p => p) (fun p => p)
       ("/index.html" +:+ String "#" "top?x")
     = "/srv/index.html".
Proof.
  pose proof (query_does_not_select_the_file "/srv" (fun p => p) (fun p => p)
                "/index.html" "v=3" eq_refl eq_refl) as (H1 & _).
  pose proof (query_does_not_select_the_file "/srv" (fun p => p) (fun p => p)
                "/index.html" "top?x" eq_refl eq_refl) as (_ & H2).
  split; [reflexivity|]. split; [reflexivity|].
  split; [rewrite H1 | rewrite H2]; reflexivity.
Defined.

(** ** The CORS field is sent once *)










